(** * MCP handler: setup coordination, streaming recursion and fallback

    A shallow embedding of [massgen/mcp_tools/mcp_handler.py] (class
    [MCPHandler]).  Python dictionaries with a fixed set of keys are
    records, the functions registry is a finite map, asynchronous
    generators are the finite lists of the chunks they yield, and the
    attributes of the backend object are the fields of one state record
    that every method takes and returns.  Exceptions are values of [exc].

    The collaborators that live in other modules of the package
    ([backend_utils], [circuit_breaker], the JSON decoder, the execution
    manager) are the fields of the class [Collaborators]: every
    definition and theorem below holds for any implementation of them. *)

From Stdlib Require Import ZArith Ascii String List Lia.
From stdpp Require Import base option gmap strings list pretty sorting.

Local Open Scope string_scope.
Local Open Scope list_scope.

(** ** Python primitives *)

Module Py.

(** [str.lower] on the ASCII range.  A name whose lower-case form is
    ["vote"] or ["new_answer"] consists of ASCII letters and [_] only (no
    other code point lower-cases to one of those letters), so for the
    comparisons made in this file the bytes above 127 can stay as they
    are. *)
Definition lower_ascii (c : ascii) : ascii :=
  let n := N_of_ascii c in
  if ((65 <=? n) && (n <=? 90))%N then ascii_of_N (n + 32) else c.

Fixpoint lower (s : string) : string :=
  match s with
  | EmptyString => EmptyString
  | String c r => String (lower_ascii c) (lower r)
  end.

(** [str.startswith]. *)
Definition startswith (s p : string) : bool := String.prefix p s.

(** [sorted] on a list of strings (code point order). *)
Fixpoint insert_sorted (x : string) (l : list string) : list string :=
  match l with
  | [] => [x]
  | y :: r => if String.leb x y then x :: l else y :: insert_sorted x r
  end.

Definition sorted (l : list string) : list string :=
  foldr insert_sorted [] l.

(** [str(n)] for a non-negative integer. *)
Definition str_of_nat (n : nat) : string := pretty n.

(** The newline of an f-string, and the double quote. *)
Definition nl : string := String (ascii_of_nat 10) EmptyString.
Definition dq : string := String (ascii_of_nat 34) EmptyString.

End Py.

(** ** Exceptions *)

Record Error := { err_class : string; err_text : string }.

Inductive exc (A : Type) : Type :=
| Ok (a : A)
| Raise (e : Error).
Arguments Ok {A} a.
Arguments Raise {A} e.

(** ** Data *)

(** [MCPState], as far as this module uses it. *)
Inductive MCPState := NOT_INITIALIZED | READY.

(** A server descriptor: [s.get("name")] and the rest of the dictionary. *)
Record Server := {
  server_name : option string;
  server_transport : string;
  server_params : string
}.

(** A tool definition: [tool.get("type")], [tool.get("name")] and the rest
    of the dictionary. *)
Record Tool := {
  tool_type : option string;
  tool_name : option string;
  tool_body : string
}.

(** [StreamChunk(type=..., status=..., content=..., source=...)]. *)
Record StreamChunk := {
  chunk_type : string;
  chunk_status : option string;
  chunk_content : option string;
  chunk_source : option string
}.

(** What iterating an [AsyncGenerator[StreamChunk, None]] gives: the
    chunks it yields and, when the iteration does not end normally, the
    exception that ends it. *)
Record ChunkStream := {
  yielded : list StreamChunk;
  raised : option Error
}.

(** One captured function call: [call["name"]], [call["arguments"]] and
    [call.get("call_id")]. *)
Record Call := {
  call_name : string;
  call_arguments : string;
  call_id : option string
}.

(** Entries of the conversation history. *)
Inductive Message :=
| Msg_function_call (id name arguments : string)
| Msg_function_call_output (id output : string)
| Msg_other (body : string).

#[global] Instance MCPState_eq_dec : EqDecision MCPState.
Proof. solve_decision. Defined.
#[global] Instance Server_eq_dec : EqDecision Server.
Proof. solve_decision. Defined.
#[global] Instance Tool_eq_dec : EqDecision Tool.
Proof. solve_decision. Defined.
#[global] Instance StreamChunk_eq_dec : EqDecision StreamChunk.
Proof. solve_decision. Defined.
#[global] Instance Call_eq_dec : EqDecision Call.
Proof. solve_decision. Defined.

(** [StreamChunk(type="done")]. *)
Definition done_chunk : StreamChunk :=
  {| chunk_type := "done"; chunk_status := None;
     chunk_content := None; chunk_source := None |}.

Definition mcp_status_chunk (status content source : string) : StreamChunk :=
  {| chunk_type := "mcp_status"; chunk_status := Some status;
     chunk_content := Some content; chunk_source := Some source |}.

(** ** Coordination tools *)

Definition coordination_tool_names : gset string :=
  {[ "vote" ]} ∪ {[ "new_answer" ]}.

Definition _is_coordination_tool (tool_name : string) : bool :=
  bool_decide (Py.lower tool_name ∈ coordination_tool_names).

(** [tool.get("name", "")]. *)
Definition get_name (tool : Tool) : string := default "" (tool_name tool).

Definition _should_preserve_coordination_tool
    (tool_name : string) (original_tools : list Tool)
    (existing_answers_available is_final_agent : bool) : bool :=
  if negb (_is_coordination_tool tool_name) then false
  else
    let original_tool_names : gset string :=
      list_to_set (map get_name original_tools) in
    if bool_decide (tool_name ∉ original_tool_names) then false
    else if existing_answers_available
         then bool_decide (Py.lower tool_name = "vote")
         else bool_decide (Py.lower tool_name = "new_answer").

(** The first loop of [_filter_coordination_tools_for_context]: the pair
    [(coordination_tools, other_tools)] after the tools seen so far. *)
Definition classify_tool (acc : list Tool * list Tool) (tool : Tool)
    : list Tool * list Tool :=
  if _is_coordination_tool (get_name tool)
  then (acc.1 ++ [tool], acc.2)
  else (acc.1, acc.2 ++ [tool]).

(** The second loop: the coordination tools that are preserved. *)
Definition preserve_tool (original_tools : list Tool)
    (existing_answers_available is_final_agent : bool)
    (acc : list Tool) (tool : Tool) : list Tool :=
  if _should_preserve_coordination_tool (get_name tool) original_tools
       existing_answers_available is_final_agent
  then acc ++ [tool] else acc.

Definition _filter_coordination_tools_for_context
    (current_tools original_tools : list Tool)
    (existing_answers_available is_final_agent : bool) : list Tool :=
  let '(coordination_tools, other_tools) :=
    foldl classify_tool ([], []) current_tools in
  match coordination_tools with
  | [] => current_tools
  | _ =>
    let filtered_coordination_tools :=
      foldl (preserve_tool original_tools existing_answers_available
               is_final_agent) [] coordination_tools in
    other_tools ++ filtered_coordination_tools
  end.

(** ** The execution manager's results *)

(** What [MCPExecutionManager.execute_function_with_retry] returns: a
    dictionary with an ["error"] entry, or a result with its [str] and,
    when it has one, [result.content[0].text]. *)
Inductive ExecResult :=
| ErrorDict (error : string)
| ToolResult (repr : string) (content_text : option string).

(** While it runs, the execution manager calls the two callbacks it is
    given; [Stats action] is [stats_callback(action)] and [Breaker_event
    event error_msg] is [circuit_breaker_callback(event, error_msg)]. *)
Inductive ManagerAction :=
| Stats (action : string)
| Breaker_event (event error_msg : string).

(** One run of the execution manager: the callbacks it made, in order, and
    what it returned or raised. *)
Definition ManagerRun : Type := list ManagerAction * exc ExecResult.

(** ** Collaborators

    What the handler imports from the rest of the package.  The types are
    opaque to the handler; the functions are the calls it makes.  A call
    that the handler wraps in [try] returns an [exc]. *)

Class Collaborators := {
  (** [MultiMCPClient], [MCPCircuitBreaker], [Function], the value of
      [json.loads], a chunk of the backend stream, [**kwargs], and the
      entries of the request parameters other than ["tools"]. *)
  Client : Type;
  Breaker : Type;
  Function : Type;
  JsonArgs : Type;
  RawChunk : Type;
  Kwargs : Type;
  Extra : Type;
  (** [MCPSetupManager] *)
  normalize_mcp_servers : list Server -> exc (list Server);
  separate_stdio_streamable_servers : list Server -> exc (list Server);
  (** [MCPCircuitBreakerManager] and [circuit_breaker.config.max_failures];
      filtering never raises. *)
  apply_circuit_breaker_filtering : list Server -> Breaker -> list Server;
  record_failure : list Server -> Breaker -> string -> exc Breaker;
  record_success : list Server -> Breaker -> exc Breaker;
  record_event : list Server -> Breaker -> string -> option string -> Breaker;
  max_failures : Breaker -> Z;
  (** [MCPResourceManager]; [setup_mcp_client] is handed the breaker and
      may record in it, so it also returns the breaker as it leaves it. *)
  setup_mcp_client :
    list Server -> option Breaker -> exc (option Client) * option Breaker;
  convert_tools_to_functions : Client -> exc (gmap string Function);
  get_server_names : Client -> exc (list string);
  (** [MCPMessageManager], [MCPErrorHandler]: [(log_type, user_message)];
      the fallback handler calls [get_error_details] outside any [try]. *)
  trim_message_history : list Message -> Z -> list Message;
  get_error_details : Error -> exc (string * string);
  (** [json.loads] on a string: the value, or the decode error. *)
  json_loads : string -> exc JsonArgs;
  (** [MCPExecutionManager.execute_function_with_retry(function_name,
      args, functions, max_retries, ...)]. *)
  execute_function_with_retry :
    string -> JsonArgs -> gmap string Function -> Z -> ManagerRun;
  (** [hasattr(chunk, "type")] and [chunk.type]. *)
  raw_chunk_type : RawChunk -> option string
}.

Section Handler.
Context `{C : Collaborators}.

(** Calls that leave the process, recorded in the order they are made. *)
Inductive Effect :=
| Connect (servers : list Server)
| Disconnect
| Invoke (name : string) (args : JsonArgs).

(** The attributes of the handler and of its backend. *)
Record Handler := {
  mcp_servers : list Server;
  _mcp_state : MCPState;
  _mcp_permanently_blocked : bool;
  _mcp_connection_failure_notified : bool;
  _mcp_circuit_breaker_notified : bool;
  _circuit_breakers_enabled : bool;
  _mcp_tools_circuit_breaker : option Breaker;
  _mcp_client : option Client;
  functions : gmap string Function;
  _mcp_connection_status_chunk : option StreamChunk;
  _mcp_tool_calls_count : Z;
  _mcp_tool_failures : Z;
  _max_mcp_message_history : Z;
  _last_mcp_servers_used : list Server;
  _servers_signature : option (list string);
  effects : list Effect
}.

Definition set_mcp_state (v : MCPState) (h : Handler) : Handler :=
  Build_Handler (mcp_servers h) v (_mcp_permanently_blocked h)
    (_mcp_connection_failure_notified h) (_mcp_circuit_breaker_notified h)
    (_circuit_breakers_enabled h) (_mcp_tools_circuit_breaker h)
    (_mcp_client h) (functions h) (_mcp_connection_status_chunk h)
    (_mcp_tool_calls_count h) (_mcp_tool_failures h)
    (_max_mcp_message_history h) (_last_mcp_servers_used h)
    (_servers_signature h) (effects h).

Definition set_mcp_permanently_blocked (v : bool) (h : Handler) : Handler :=
  Build_Handler (mcp_servers h) (_mcp_state h) v
    (_mcp_connection_failure_notified h) (_mcp_circuit_breaker_notified h)
    (_circuit_breakers_enabled h) (_mcp_tools_circuit_breaker h)
    (_mcp_client h) (functions h) (_mcp_connection_status_chunk h)
    (_mcp_tool_calls_count h) (_mcp_tool_failures h)
    (_max_mcp_message_history h) (_last_mcp_servers_used h)
    (_servers_signature h) (effects h).

Definition set_mcp_connection_failure_notified (v : bool) (h : Handler) : Handler :=
  Build_Handler (mcp_servers h) (_mcp_state h) (_mcp_permanently_blocked
    h) v (_mcp_circuit_breaker_notified h) (_circuit_breakers_enabled h)
    (_mcp_tools_circuit_breaker h) (_mcp_client h) (functions h)
    (_mcp_connection_status_chunk h) (_mcp_tool_calls_count h)
    (_mcp_tool_failures h) (_max_mcp_message_history h)
    (_last_mcp_servers_used h) (_servers_signature h) (effects h).

Definition set_mcp_circuit_breaker_notified (v : bool) (h : Handler) : Handler :=
  Build_Handler (mcp_servers h) (_mcp_state h) (_mcp_permanently_blocked
    h) (_mcp_connection_failure_notified h) v (_circuit_breakers_enabled
    h) (_mcp_tools_circuit_breaker h) (_mcp_client h) (functions h)
    (_mcp_connection_status_chunk h) (_mcp_tool_calls_count h)
    (_mcp_tool_failures h) (_max_mcp_message_history h)
    (_last_mcp_servers_used h) (_servers_signature h) (effects h).

Definition set_mcp_tools_circuit_breaker (v : option Breaker) (h : Handler) : Handler :=
  Build_Handler (mcp_servers h) (_mcp_state h) (_mcp_permanently_blocked
    h) (_mcp_connection_failure_notified h) (_mcp_circuit_breaker_notified
    h) (_circuit_breakers_enabled h) v (_mcp_client h) (functions h)
    (_mcp_connection_status_chunk h) (_mcp_tool_calls_count h)
    (_mcp_tool_failures h) (_max_mcp_message_history h)
    (_last_mcp_servers_used h) (_servers_signature h) (effects h).

Definition set_mcp_client (v : option Client) (h : Handler) : Handler :=
  Build_Handler (mcp_servers h) (_mcp_state h) (_mcp_permanently_blocked
    h) (_mcp_connection_failure_notified h) (_mcp_circuit_breaker_notified
    h) (_circuit_breakers_enabled h) (_mcp_tools_circuit_breaker h) v
    (functions h) (_mcp_connection_status_chunk h) (_mcp_tool_calls_count
    h) (_mcp_tool_failures h) (_max_mcp_message_history h)
    (_last_mcp_servers_used h) (_servers_signature h) (effects h).

Definition set_functions (v : gmap string Function) (h : Handler) : Handler :=
  Build_Handler (mcp_servers h) (_mcp_state h) (_mcp_permanently_blocked
    h) (_mcp_connection_failure_notified h) (_mcp_circuit_breaker_notified
    h) (_circuit_breakers_enabled h) (_mcp_tools_circuit_breaker h)
    (_mcp_client h) v (_mcp_connection_status_chunk h)
    (_mcp_tool_calls_count h) (_mcp_tool_failures h)
    (_max_mcp_message_history h) (_last_mcp_servers_used h)
    (_servers_signature h) (effects h).

Definition set_mcp_connection_status_chunk (v : option StreamChunk) (h : Handler) : Handler :=
  Build_Handler (mcp_servers h) (_mcp_state h) (_mcp_permanently_blocked
    h) (_mcp_connection_failure_notified h) (_mcp_circuit_breaker_notified
    h) (_circuit_breakers_enabled h) (_mcp_tools_circuit_breaker h)
    (_mcp_client h) (functions h) v (_mcp_tool_calls_count h)
    (_mcp_tool_failures h) (_max_mcp_message_history h)
    (_last_mcp_servers_used h) (_servers_signature h) (effects h).

Definition set_mcp_tool_calls_count (v : Z) (h : Handler) : Handler :=
  Build_Handler (mcp_servers h) (_mcp_state h) (_mcp_permanently_blocked
    h) (_mcp_connection_failure_notified h) (_mcp_circuit_breaker_notified
    h) (_circuit_breakers_enabled h) (_mcp_tools_circuit_breaker h)
    (_mcp_client h) (functions h) (_mcp_connection_status_chunk h) v
    (_mcp_tool_failures h) (_max_mcp_message_history h)
    (_last_mcp_servers_used h) (_servers_signature h) (effects h).

Definition set_mcp_tool_failures (v : Z) (h : Handler) : Handler :=
  Build_Handler (mcp_servers h) (_mcp_state h) (_mcp_permanently_blocked
    h) (_mcp_connection_failure_notified h) (_mcp_circuit_breaker_notified
    h) (_circuit_breakers_enabled h) (_mcp_tools_circuit_breaker h)
    (_mcp_client h) (functions h) (_mcp_connection_status_chunk h)
    (_mcp_tool_calls_count h) v (_max_mcp_message_history h)
    (_last_mcp_servers_used h) (_servers_signature h) (effects h).

Definition set_last_mcp_servers_used (v : list Server) (h : Handler) : Handler :=
  Build_Handler (mcp_servers h) (_mcp_state h) (_mcp_permanently_blocked
    h) (_mcp_connection_failure_notified h) (_mcp_circuit_breaker_notified
    h) (_circuit_breakers_enabled h) (_mcp_tools_circuit_breaker h)
    (_mcp_client h) (functions h) (_mcp_connection_status_chunk h)
    (_mcp_tool_calls_count h) (_mcp_tool_failures h)
    (_max_mcp_message_history h) v (_servers_signature h) (effects h).

Definition set_servers_signature (v : option (list string)) (h : Handler) : Handler :=
  Build_Handler (mcp_servers h) (_mcp_state h) (_mcp_permanently_blocked
    h) (_mcp_connection_failure_notified h) (_mcp_circuit_breaker_notified
    h) (_circuit_breakers_enabled h) (_mcp_tools_circuit_breaker h)
    (_mcp_client h) (functions h) (_mcp_connection_status_chunk h)
    (_mcp_tool_calls_count h) (_mcp_tool_failures h)
    (_max_mcp_message_history h) (_last_mcp_servers_used h) v (effects h).

Definition set_effects (v : list Effect) (h : Handler) : Handler :=
  Build_Handler (mcp_servers h) (_mcp_state h) (_mcp_permanently_blocked
    h) (_mcp_connection_failure_notified h) (_mcp_circuit_breaker_notified
    h) (_circuit_breakers_enabled h) (_mcp_tools_circuit_breaker h)
    (_mcp_client h) (functions h) (_mcp_connection_status_chunk h)
    (_mcp_tool_calls_count h) (_mcp_tool_failures h)
    (_max_mcp_message_history h) (_last_mcp_servers_used h)
    (_servers_signature h) v.

Definition add_effect (e : Effect) (h : Handler) : Handler :=
  set_effects (effects h ++ [e]) h.

(** ** Session setup *)

(** [cleanup_mcp]: an exception of [disconnect] is logged and dropped. *)
Definition cleanup_mcp (h : Handler) : Handler :=
  match _mcp_client h with
  | Some mcp_client =>
    let h := add_effect Disconnect h in
    let h := set_mcp_client None h in
    let h := set_mcp_state NOT_INITIALIZED h in
    set_functions ∅ h
  | None => h
  end.

(** [server.get("name") in connected_server_names]. *)
Definition server_connected (connected_server_names : list string)
    (server : Server) : bool :=
  match server_name server with
  | Some n => bool_decide (n ∈ connected_server_names)
  | None => false
  end.

Definition connected_chunk (connected_server_names : list string)
    : StreamChunk :=
  mcp_status_chunk "mcp_connected"
    ("✅ [MCP] Connected to "
       +:+ Py.str_of_nat (length connected_server_names) +:+ " servers")
    "mcp_setup".

(** The tail of [_attempt_mcp_setup], once the client exists: the
    breaker is credited only for the servers that report a connection. *)
Definition record_connected (servers_to_use : list Server)
    (circuit_breaker : option Breaker) (mcp_client : Client) (h : Handler)
    : Handler :=
  match _circuit_breakers_enabled h, circuit_breaker, get_server_names mcp_client with
  | true, Some cb, Ok connected_server_names =>
    match connected_server_names with
    | [] => h
    | _ =>
      let connected_server_configs :=
        filter (λ s, Is_true (server_connected connected_server_names s))
               servers_to_use in
      match connected_server_configs with
      | [] => h
      | _ =>
        match record_success connected_server_configs cb with
        | Ok cb' => set_mcp_tools_circuit_breaker (Some cb') h
        | Raise _ => h
        end
      end
    end
  | _, _, _ => h
  end.

(** [_attempt_mcp_setup]: every exception ends the attempt with [False].
    The breaker argument is either [None] or the backend's own breaker
    object, so what the client setup records in it is seen by the backend. *)
Definition _attempt_mcp_setup (servers_to_use : list Server)
    (circuit_breaker : option Breaker) (original_servers : list Server)
    (h : Handler) : bool * Handler :=
  let h := set_last_mcp_servers_used servers_to_use h in
  let h := add_effect (Connect servers_to_use) h in
  let '(mcp_client, breaker_after) :=
    setup_mcp_client servers_to_use circuit_breaker in
  let h := match circuit_breaker, breaker_after with
           | Some _, Some cb' => set_mcp_tools_circuit_breaker (Some cb') h
           | _, _ => h
           end in
  let circuit_breaker := match circuit_breaker with
                         | Some _ => _mcp_tools_circuit_breaker h
                         | None => None
                         end in
  match mcp_client with
  | Raise _ => (false, h)
  | Ok None =>
    (false,
     if _mcp_connection_failure_notified h then h
     else set_mcp_connection_failure_notified true h)
  | Ok (Some mcp_client) =>
    match convert_tools_to_functions mcp_client with
    | Raise _ => (false, h)
    | Ok converted =>
      let h := set_functions (converted ∪ functions h) h in
      let h := set_mcp_client (Some mcp_client) h in
      let h := set_mcp_state READY h in
      let h := match get_server_names mcp_client with
               | Ok (n :: ns) =>
                 set_mcp_connection_status_chunk
                   (Some (connected_chunk (n :: ns))) h
               | _ => h
               end in
      (true, record_connected servers_to_use circuit_breaker mcp_client h)
    end
  end.

(** The [except] clause of [setup_mcp_tools].  Both collaborators that
    can raise run before [mcp_tools_servers] is bound, so
    [locals().get("mcp_tools_servers", [])] is [[]]. *)
Definition setup_failed (e : Error) (h : Handler) : Handler :=
  let h :=
    match _circuit_breakers_enabled h, _mcp_tools_circuit_breaker h with
    | true, Some circuit_breaker =>
      let servers_to_use :=
        match _last_mcp_servers_used h with
        | [] => []
        | used => used
        end in
      match record_failure servers_to_use circuit_breaker (err_text e) with
      | Ok cb' => set_mcp_tools_circuit_breaker (Some cb') h
      | Raise _ => h
      end
    | _, _ => h
    end in
  let h := set_mcp_client None h in
  let h := set_mcp_state NOT_INITIALIZED h in
  set_functions ∅ h.

(** The body of [for attempt in range(1, max_attempts + 1)], from
    [attempt] on, with [remaining] iterations left. *)
Fixpoint setup_attempts (remaining : nat) (attempt max_attempts : Z)
    (mcp_tools_servers : list Server) (h : Handler) : Handler :=
  match remaining, _mcp_tools_circuit_breaker h with
  | S remaining', Some circuit_breaker =>
    let filtered_servers :=
      apply_circuit_breaker_filtering mcp_tools_servers circuit_breaker in
    match filtered_servers with
    | [] =>
      let h := if _mcp_circuit_breaker_notified h then h
               else set_mcp_circuit_breaker_notified true h in
      let h := if (attempt >=? max_attempts)%Z
               then set_mcp_permanently_blocked true h else h in
      h
    | _ =>
      let '(success, h) :=
        _attempt_mcp_setup filtered_servers (Some circuit_breaker)
          mcp_tools_servers h in
      if success then h
      else if (attempt >=? max_attempts)%Z
           then set_mcp_permanently_blocked true h
           else setup_attempts remaining' (attempt + 1) max_attempts
                  mcp_tools_servers h
    end
  | _, _ => h
  end.

Definition signature_of (normalized_servers : list Server) : list string :=
  Py.sorted (map (λ s, default "" (server_name s)) normalized_servers).

(** The block under [if self._servers_signature != new_signature] of
    [setup_mcp_tools]: the new signature is stored, the state is reset, and
    an existing client is cleaned up. *)
Definition after_signature_check (new_signature : list string) (h : Handler)
    : Handler :=
  if bool_decide (_servers_signature h ≠ Some new_signature)
  then
    let h := set_servers_signature (Some new_signature) h in
    let h := set_mcp_state NOT_INITIALIZED h in
    match _mcp_client h with
    | Some _ => cleanup_mcp h
    | None => h
    end
  else h.

Definition setup_mcp_tools (h : Handler) : Handler :=
  match mcp_servers h with
  | [] => h
  | _ =>
    let current_state := _mcp_state h in
    if bool_decide (current_state = READY) then h
    else if _mcp_permanently_blocked h then h
    else
      match normalize_mcp_servers (mcp_servers h) with
      | Raise e => setup_failed e h
      | Ok normalized_servers =>
        let new_signature := signature_of normalized_servers in
        if bool_decide (_servers_signature h = Some new_signature)
           && bool_decide (current_state = READY)
        then h
        else
          let h := after_signature_check new_signature h in
          match separate_stdio_streamable_servers normalized_servers with
          | Raise e => setup_failed e h
          | Ok [] => h
          | Ok mcp_tools_servers =>
            match _circuit_breakers_enabled h, _mcp_tools_circuit_breaker h with
            | true, Some circuit_breaker =>
              let max_attempts := max_failures circuit_breaker in
              setup_attempts (Z.to_nat max_attempts) 1 max_attempts
                mcp_tools_servers h
            | _, _ =>
              (_attempt_mcp_setup mcp_tools_servers None mcp_tools_servers h).2
            end
          end
      end
  end.

(** ** Executing one call *)

(** [stats_callback], under the statistics lock. *)
Definition stats_callback (action : string) (h : Handler) : Handler :=
  if bool_decide (action = "increment_calls")
  then set_mcp_tool_calls_count (_mcp_tool_calls_count h + 1)%Z h
  else if bool_decide (action = "increment_failures")
  then set_mcp_tool_failures (_mcp_tool_failures h + 1)%Z h
  else h.

(** [circuit_breaker_callback]: events are recorded against an empty
    server list. *)
Definition circuit_breaker_callback (event error_msg : string) (h : Handler)
    : Handler :=
  match _mcp_tools_circuit_breaker h with
  | Some circuit_breaker =>
    if bool_decide (event = "failure")
    then set_mcp_tools_circuit_breaker
           (Some (record_event [] circuit_breaker "failure" (Some error_msg))) h
    else set_mcp_tools_circuit_breaker
           (Some (record_event [] circuit_breaker "success" None)) h
  | None => h
  end.

Definition run_callback (h : Handler) (a : ManagerAction) : Handler :=
  match a with
  | Stats action => stats_callback action h
  | Breaker_event event error_msg => circuit_breaker_callback event error_msg h
  end.

(** [execute_mcp_function_with_retry]: the pair [(text, result)], or the
    exception of the execution manager. *)
Definition execute_mcp_function_with_retry (function_name arguments_json : string)
    (max_retries : Z) (h : Handler) : exc (string * ExecResult) * Handler :=
  match json_loads arguments_json with
  | Raise e =>
    let error_str := "Error: Invalid JSON arguments: " +:+ err_text e in
    (Ok (error_str, ErrorDict error_str), h)
  | Ok args =>
    let h := add_effect (Invoke function_name args) h in
    let '(actions, result) :=
      execute_function_with_retry function_name args (functions h) max_retries in
    let h := foldl run_callback h actions in
    match result with
    | Raise e => (Raise e, h)
    | Ok (ErrorDict error) => (Ok ("Error: " +:+ error, ErrorDict error), h)
    | Ok (ToolResult repr text) => (Ok (repr, ToolResult repr text), h)
    end
  end.

(** ** The streaming engine *)

(** Request parameters: the ["tools"] entry, when present, and the rest. *)
Record ApiParams := {
  api_tools : option (list Tool);
  api_extra : Extra
}.

(** The callbacks of [execute_mcp_functions_and_recurse]; each is
    optional.  The engine guards the detection and the formatting
    callback with [try], so these two may raise.  It does not guard the
    others, nor the iteration of the backend stream: these are taken to
    return, and what is proved of the engine is proved for callbacks that
    do. *)
Record Callbacks := {
  build_api_params_callback :
    option (list Message -> list Tool -> Kwargs -> ApiParams);
  create_stream_callback : option (ApiParams -> list RawChunk);
  detect_function_calls_callback :
    option (RawChunk -> option Call -> list Call ->
            exc (option Call * list Call * bool));
  process_chunk_callback : option (RawChunk -> option StreamChunk);
  format_tool_result_callback : option (Call -> string -> exc (option Message));
  fallback_stream_callback :
    option (list Message -> list Call -> list StreamChunk)
}.

(** The recursive call passes every callback on except the fallback. *)
Definition without_fallback (cbs : Callbacks) : Callbacks :=
  {| build_api_params_callback := build_api_params_callback cbs;
     create_stream_callback := create_stream_callback cbs;
     detect_function_calls_callback := detect_function_calls_callback cbs;
     process_chunk_callback := process_chunk_callback cbs;
     format_tool_result_callback := format_tool_result_callback cbs;
     fallback_stream_callback := None |}.

(** [call["name"] in functions]. *)
Definition in_registry (h : Handler) (call : Call) : bool :=
  bool_decide (is_Some (functions h !! call_name call)).

Definition default_output_msg (call : Call) (output : string) : Message :=
  Msg_function_call_output (default "" (call_id call)) output.

(** The state of the loop over the captured calls: the chunks yielded so
    far, [updated_messages], [mcp_functions_executed], and the handler. *)
Record BatchState := {
  batch_chunks : list StreamChunk;
  batch_messages : list Message;
  batch_executed : bool;
  batch_handler : Handler
}.

(** One iteration of [for call in captured_function_calls]. *)
Definition execute_call (cbs : Callbacks) (s : BatchState) (call : Call)
    : BatchState :=
  let function_name := call_name call in
  let source := "mcp_" +:+ function_name in
  if in_registry (batch_handler s) call then
    let chunks := batch_chunks s ++
      [mcp_status_chunk "mcp_tool_called"
         ("🔧 [MCP Tool] Calling " +:+ function_name +:+ "...") source] in
    let '(outcome, h) :=
      execute_mcp_function_with_retry function_name (call_arguments call) 3
        (batch_handler s) in
    let skipped :=
      {| batch_chunks := chunks; batch_messages := batch_messages s;
         batch_executed := batch_executed s; batch_handler := h |} in
    match outcome with
    | Raise _ => skipped
    | Ok (result, result_obj) =>
      if Py.startswith result "Error:" then skipped
      else
        let function_call_msg :=
          Msg_function_call (default "" (call_id call)) function_name
            (call_arguments call) in
        let function_output_msg :=
          match format_tool_result_callback cbs with
          | Some format =>
            match format call result with
            | Ok (Some formatted_msg) => formatted_msg
            | _ => default_output_msg call result
            end
          | None => default_output_msg call result
          end in
        let pretty_result :=
          match result_obj with
          | ToolResult _ (Some text) => text
          | _ => result
          end in
        {| batch_chunks := chunks ++
             [mcp_status_chunk "function_call"
                ("Arguments for Calling " +:+ function_name +:+ ": "
                   +:+ call_arguments call) source;
              mcp_status_chunk "function_call_output"
                ("Results for Calling " +:+ function_name +:+ ": "
                   +:+ pretty_result) source;
              mcp_status_chunk "mcp_tool_response"
                ("✅ [MCP Tool] " +:+ function_name +:+ " completed") source];
           batch_messages :=
             batch_messages s ++ [function_call_msg; function_output_msg];
           batch_executed := true;
           batch_handler := h |}
    end
  else s.

Definition execute_batch (cbs : Callbacks) (captured_function_calls : list Call)
    (updated_messages : list Message) (h : Handler) : BatchState :=
  foldl (execute_call cbs)
    {| batch_chunks := []; batch_messages := updated_messages;
       batch_executed := false; batch_handler := h |}
    captured_function_calls.

Definition blocked_chunk : StreamChunk :=
  mcp_status_chunk "mcp_blocked"
    "⚠️ [MCP] All servers blocked by circuit breaker" "circuit_breaker".

Definition session_complete_chunk : StreamChunk :=
  mcp_status_chunk "mcp_session_complete" "✅ [MCP] Session completed"
    "mcp_session".

(** Step 1 of the engine either ends the turn ([Stop]) or hands the
    chunks yielded so far and the updated history to step 2. *)
Inductive Step1 :=
| Stop (chunks : list StreamChunk) (h : Handler)
| Stream (chunks : list StreamChunk) (updated_messages : list Message)
         (h : Handler).

Definition execute_captured (cbs : Callbacks) (updated_messages : list Message)
    (captured_function_calls : list Call) (h : Handler) : Step1 :=
  match captured_function_calls with
  | [] => Stream [] updated_messages h
  | _ =>
    let non_mcp_functions :=
      filter (λ call, ¬ Is_true (in_registry h call)) captured_function_calls in
    match non_mcp_functions with
    | _ :: _ =>
      match fallback_stream_callback cbs with
      | Some fallback => Stop (fallback updated_messages non_mcp_functions) h
      | None => Stop [done_chunk] h
      end
    | [] =>
      let blocked :=
        match _circuit_breakers_enabled h, _mcp_tools_circuit_breaker h with
        | true, Some circuit_breaker =>
          match apply_circuit_breaker_filtering (_last_mcp_servers_used h)
                  circuit_breaker with
          | [] => true
          | _ => false
          end
        | _, _ => false
        end in
      if blocked then
        if _mcp_circuit_breaker_notified h
        then Stop [done_chunk] h
        else Stop [blocked_chunk; done_chunk]
               (set_mcp_circuit_breaker_notified true h)
      else
        let s := execute_batch cbs captured_function_calls updated_messages h in
        let updated_messages :=
          if batch_executed s
          then trim_message_history (batch_messages s)
                 (_max_mcp_message_history (batch_handler s))
          else batch_messages s in
        Stream (batch_chunks s) updated_messages (batch_handler s)
    end
  end.

(** The state of [async for chunk in stream]: the chunks yielded,
    [current_function_call], [captured_in_iteration], [response_completed]. *)
Fixpoint scan_stream
    (detect : RawChunk -> option Call -> list Call ->
              exc (option Call * list Call * bool))
    (process : RawChunk -> option StreamChunk)
    (stream : list RawChunk) (current_function_call : option Call)
    (captured_in_iteration : list Call)
    : list StreamChunk * list Call * bool :=
  match stream with
  | [] => ([], captured_in_iteration, false)
  | chunk :: rest =>
    let '(current_function_call, captured_in_iteration, consumed) :=
      match detect chunk current_function_call captured_in_iteration with
      | Ok r => r
      | Raise _ => (current_function_call, captured_in_iteration, false)
      end in
    let yielded :=
      if consumed then []
      else match process chunk with
           | Some processed => [processed]
           | None => []
           end in
    if bool_decide (raw_chunk_type chunk = Some "response.completed")
    then (yielded, captured_in_iteration, true)
    else
      let '(chunks, captured, completed) :=
        scan_stream detect process rest current_function_call
          captured_in_iteration in
      (yielded ++ chunks, captured, completed)
  end.

(** How one activation of the engine ends: it returns, or it makes the
    recursive call with the updated history and the captured calls. *)
Inductive TurnEnd :=
| Finished
| Recurse (updated_messages : list Message) (captured : list Call).

(** One activation of [execute_mcp_functions_and_recurse], up to its
    recursive call. *)
Definition engine_turn (current_messages : list Message) (tools : list Tool)
    (captured_function_calls : list Call) (cbs : Callbacks) (kwargs : Kwargs)
    (h : Handler) : list StreamChunk * Handler * TurnEnd :=
  match execute_captured cbs current_messages captured_function_calls h with
  | Stop chunks h => (chunks, h, Finished)
  | Stream chunks updated_messages h =>
    match build_api_params_callback cbs, create_stream_callback cbs,
          detect_function_calls_callback cbs, process_chunk_callback cbs with
    | Some build, Some create, Some detect, Some process =>
      let api_params := build updated_messages tools kwargs in
      let stream := create api_params in
      let '(streamed, captured_in_iteration, response_completed) :=
        scan_stream detect process stream None [] in
      if response_completed then
        match captured_in_iteration with
        | _ :: _ =>
          (chunks ++ streamed, h, Recurse updated_messages captured_in_iteration)
        | [] =>
          (chunks ++ streamed ++ [session_complete_chunk; done_chunk], h,
           Finished)
        end
      else (chunks ++ streamed ++ [done_chunk], h, Finished)
    | _, _, _, _ => (chunks ++ [done_chunk], h, Finished)
    end
  end.

(** The engine.  The recursion of the source is not bounded, so the model
    counts the activations: [None] means that [fuel] activations were not
    enough. *)
Fixpoint execute_mcp_functions_and_recurse (fuel : nat)
    (current_messages : list Message) (tools : list Tool)
    (captured_function_calls : list Call) (cbs : Callbacks) (kwargs : Kwargs)
    (h : Handler) : option (list StreamChunk * Handler) :=
  match fuel with
  | 0 => None
  | S fuel' =>
    match engine_turn current_messages tools captured_function_calls cbs
            kwargs h with
    | (chunks, h, Finished) => Some (chunks, h)
    | (chunks, h, Recurse updated_messages captured_in_iteration) =>
      match execute_mcp_functions_and_recurse fuel' updated_messages tools
              captured_in_iteration (without_fallback cbs) kwargs h with
      | Some (next_chunks, h) => Some (chunks ++ next_chunks, h)
      | None => None
      end
    end
  end.

(** ** Fallback *)

(** [tool.get("type") != "mcp"]. *)
Definition not_mcp_type (tool : Tool) : bool :=
  bool_decide (tool_type tool ≠ Some "mcp").

(** [tool.get("name") not in functions]; a tool without a name is kept. *)
Definition not_registered (h : Handler) (tool : Tool) : bool :=
  match tool_name tool with
  | Some n => bool_decide (functions h !! n = None)
  | None => true
  end.

(** [(tool.get("type"), tool.get("name"))]. *)
Definition tool_key (tool : Tool) : option string * option string :=
  (tool_type tool, tool_name tool).

(** The parameters that [handle_mcp_error_and_fallback] hands to the
    fallback stream function. *)
Definition build_fallback_params (api_params : ApiParams)
    (provider_tools : list Tool) (is_multi_agent_context is_final_agent : bool)
    (original_tools : option (list Tool)) (existing_answers_available : bool)
    (h : Handler) : ApiParams :=
  let fallback_tools := api_tools api_params in
  let fallback_tools :=
    match fallback_tools with
    | Some tools => Some (filter (λ t, Is_true (not_mcp_type t)) tools)
    | None => None
    end in
  let fallback_tools :=
    match fallback_tools with
    | Some tools => Some (filter (λ t, Is_true (not_registered h t)) tools)
    | None => None
    end in
  let fallback_tools :=
    match is_multi_agent_context, original_tools with
    | true, Some (o :: os) =>
      Some (_filter_coordination_tools_for_context (default [] fallback_tools)
              (o :: os) existing_answers_available is_final_agent)
    | _, _ => fallback_tools
    end in
  let fallback_tools :=
    match provider_tools with
    | [] => fallback_tools
    | _ =>
      let tools := default [] fallback_tools in
      let existing_tools : gset (option string * option string) :=
        list_to_set (map tool_key tools) in
      let deduplicated_provider_tools :=
        filter (λ t, tool_key t ∉ existing_tools) provider_tools in
      Some (tools ++ deduplicated_provider_tools)
    end in
  {| api_tools := fallback_tools; api_extra := api_extra api_params |}.

Definition mcp_error_chunk (user_message : string) : StreamChunk :=
  mcp_status_chunk "mcp_error" user_message "mcp_error".

Definition notice_chunk (user_message : string) (error : Error) : StreamChunk :=
  {| chunk_type := "content"; chunk_status := None;
     chunk_content :=
       Some (Py.nl +:+ "⚠️  " +:+ user_message +:+ " (" +:+ err_text error
               +:+ "); continuing without MCP tools" +:+ Py.nl);
     chunk_source := None |}.

(** [handle_mcp_error_and_fallback].  Nothing in its body is guarded by
    [try]: an exception of [get_error_details] leaves it before the first
    chunk, and an exception of the fallback stream leaves it after the
    chunks forwarded so far. *)
Definition handle_mcp_error_and_fallback (error : Error) (api_params : ApiParams)
    (provider_tools : list Tool) (stream_func : ApiParams -> ChunkStream)
    (is_multi_agent_context is_final_agent : bool)
    (original_tools : option (list Tool)) (existing_answers_available : bool)
    (h : Handler) : ChunkStream * Handler :=
  let h := set_mcp_tool_failures (_mcp_tool_failures h + 1)%Z h in
  match get_error_details error with
  | Raise e => ({| yielded := []; raised := Some e |}, h)
  | Ok (log_type, user_message) =>
    let fallback_params :=
      build_fallback_params api_params provider_tools is_multi_agent_context
        is_final_agent original_tools existing_answers_available h in
    let fallback := stream_func fallback_params in
    ({| yielded :=
          [mcp_error_chunk user_message; notice_chunk user_message error]
            ++ yielded fallback;
        raised := raised fallback |}, h)
  end.

(** ** Queries and context manager *)

(** [should_use_mcp]: servers configured, a non-empty registry, and a
    session that is READY. *)
Definition should_use_mcp (h : Handler) : bool :=
  if negb (bool_decide (functions h ≠ ∅) && bool_decide (mcp_servers h ≠ []))
  then false
  else if bool_decide (_mcp_state h ≠ READY) then false
  else true.

(** [should_show_no_mcp_message].  The attribute
    [_mcp_permanent_block_notified], which no other method reads or
    writes, is passed beside the handler and returned with the answer. *)
Definition should_show_no_mcp_message (_mcp_permanent_block_notified : bool)
    (h : Handler) : bool * bool :=
  match mcp_servers h with
  | [] => (false, _mcp_permanent_block_notified)
  | _ =>
    if _mcp_permanently_blocked h then
      if negb _mcp_permanent_block_notified then (true, true)
      else (false, _mcp_permanent_block_notified)
    else if _mcp_connection_failure_notified h
    then (false, _mcp_permanent_block_notified)
    else if match _circuit_breakers_enabled h, _mcp_tools_circuit_breaker h with
            | true, Some _ => _mcp_circuit_breaker_notified h
            | _, _ => false
            end
    then (false, _mcp_permanent_block_notified)
    else if bool_decide (functions h = ∅)
    then (true, _mcp_permanent_block_notified)
    else (false, _mcp_permanent_block_notified)
  end.

(** [setup_context_manager]: setup when servers are configured; the
    [except] clause has nothing to catch, since [setup_mcp_tools] does not
    raise. *)
Definition setup_context_manager (h : Handler) : Handler :=
  match mcp_servers h with
  | [] => h
  | _ => setup_mcp_tools h
  end.

End Handler.

Arguments Handler : clear implicits.
Arguments Callbacks : clear implicits.
Arguments ApiParams : clear implicits.
Arguments BatchState : clear implicits.

(** ** Predicates on tools *)

(** The tool is a coordination tool as [_is_coordination_tool] sees it. *)
Definition is_coordination (tool : Tool) : Prop :=
  Is_true (_is_coordination_tool (get_name tool)).

(** The policy keeps the coordination tool. *)
Definition is_preserved (original_tools : list Tool)
    (existing_answers_available is_final_agent : bool) (tool : Tool) : Prop :=
  Is_true (_should_preserve_coordination_tool (get_name tool) original_tools
             existing_answers_available is_final_agent).

#[global] Instance is_coordination_dec tool : Decision (is_coordination tool).
Proof. unfold is_coordination. apply _. Defined.

#[global] Instance is_preserved_dec o e f tool : Decision (is_preserved o e f tool).
Proof. unfold is_preserved. apply _. Defined.

(** ** Vocabulary of the properties *)

Section Vocabulary.
Context `{C : Collaborators}.

(** The signature stored in the session is the one of the configured
    servers. *)
Definition signature_unchanged (h : Handler C) : Prop :=
  ∃ normalized_servers,
    normalize_mcp_servers (mcp_servers h) = Ok normalized_servers
    ∧ _servers_signature h = Some (signature_of normalized_servers).

(** A tool that belongs to this layer: it carries the type marker, or its
    name is a key of the functions registry. *)
Definition layer_tool (h : Handler C) (tool : Tool) : Prop :=
  tool_type tool = Some "mcp"
  ∨ ∃ n, tool_name tool = Some n ∧ is_Some (functions h !! n).

(** The tools of request parameters; none when the entry is absent. *)
Definition tools_of (params : ApiParams C) : list Tool :=
  default [] (api_tools params).

(** The batch has a call whose name is not a key of the registry. *)
Definition has_unknown_call (h : Handler C) (captured : list Call) : Prop :=
  ∃ call, call ∈ captured ∧ functions h !! call_name call = None.

(** The engine hands the turn to the fallback callback. *)
Definition delegates_to_fallback (h : Handler C) (captured : list Call)
    (cbs : Callbacks C) : Prop :=
  has_unknown_call h captured ∧ is_Some (fallback_stream_callback cbs).

(** The backend asks for calls in at most [k] consecutive turns: the
    activation that starts here returns, or recurses into one that is
    bounded by [k - 1]. *)
Fixpoint turns_bounded (k : nat) (current_messages : list Message)
    (tools : list Tool) (captured : list Call) (cbs : Callbacks C)
    (kwargs : Kwargs) (h : Handler C) : Prop :=
  match engine_turn current_messages tools captured cbs kwargs h with
  | (_, _, Finished) => True
  | (_, h', Recurse updated_messages captured') =>
    match k with
    | 0 => False
    | S k' =>
      turns_bounded k' updated_messages tools captured' (without_fallback cbs)
        kwargs h'
    end
  end.

(** The stream ends with the [done] chunk. *)
Definition ends_with_done (chunks : list StreamChunk) : Prop :=
  last chunks = Some done_chunk.

(** What the loop over the captured calls carries besides the chunks:
    the history, the flag, and the handler. *)
Definition batch_core (s : BatchState C)
    : list Message * bool * Handler C :=
  (batch_messages s, batch_executed s, batch_handler s).

(** The connection attempts among the recorded effects. *)
Definition connection_attempts (h : Handler C) : list (list Server) :=
  omap (λ e, match e with Connect servers => Some servers | _ => None end)
       (effects h).

(** The calls of the execution manager among the recorded effects. *)
Definition invocations (h : Handler C) : list (string * JsonArgs) :=
  omap (λ e, match e with Invoke name args => Some (name, args) | _ => None end)
       (effects h).

(** A session that is READY has a client. *)
Definition ready_has_client (h : Handler C) : Prop :=
  _mcp_state h = READY → is_Some (_mcp_client h).

(** The order on names that [sorted] uses. *)
Definition name_le (x y : string) : Prop := String.leb x y = true.

(** What a captured call hands to the execution manager: its name and
    parsed arguments, when the name is registered and the arguments
    parse. *)
Definition invocation_of (h : Handler C) (call : Call)
    : option (string * JsonArgs) :=
  if in_registry h call
  then match json_loads (call_arguments call) with
       | Ok args => Some (call_name call, args)
       | Raise _ => None
       end
  else None.

(** The number of times the execution manager asks for [action] through
    the statistics callback. *)
Fixpoint count_stats (action : string) (actions : list ManagerAction) : Z :=
  match actions with
  | [] => 0
  | Stats a :: rest =>
    ((if bool_decide (a = action) then 1 else 0) + count_stats action rest)%Z
  | Breaker_event _ _ :: rest => count_stats action rest
  end.

(** The stream has no chunk that signals completion. *)
Definition never_completes (stream : list RawChunk) : Prop :=
  Forall (λ chunk, raw_chunk_type chunk ≠ Some "response.completed") stream.

(** The chunks that the scan looks at: the stream up to and including
    the first chunk that signals completion. *)
Fixpoint examined (stream : list RawChunk) : list RawChunk :=
  match stream with
  | [] => []
  | chunk :: rest =>
    if bool_decide (raw_chunk_type chunk = Some "response.completed")
    then [chunk]
    else chunk :: examined rest
  end.

(** Whether the detection took the chunk for itself; a detection that
    raises did not. *)
Definition detection_consumes
    (result : exc (option Call * list Call * bool)) : bool :=
  match result with
  | Ok (_, _, consumed) => consumed
  | Raise _ => false
  end.


End Vocabulary.

(** ** A small implementation of the collaborators

    Enough of the rest of the package to run the handler on concrete
    inputs: a breaker that blocks the servers on its list, a client that
    connects to every server it is given, and a backend that asks for one
    [lookup] call as long as the history is empty. *)

Module Sample.

Record breaker := { blocked : list string; threshold : Z }.

Definition available (b : breaker) (s : Server) : bool :=
  match server_name s with
  | Some n => bool_decide (n ∉ blocked b)
  | None => true
  end.

Definition names (servers : list Server) : list string :=
  omap server_name servers.

Definition decode_error : Error :=
  {| err_class := "JSONDecodeError";
     err_text := "Expecting value: line 1 column 1 (char 0)" |}.

Definition decode (s : string) : exc string :=
  if Py.startswith s "{" then Ok s else Raise decode_error.

Definition collaborators : Collaborators := {|
  Client := list string;
  Breaker := breaker;
  Function := unit;
  JsonArgs := string;
  RawChunk := string;
  Kwargs := unit;
  Extra := nat;
  normalize_mcp_servers := Ok;
  separate_stdio_streamable_servers := Ok;
  apply_circuit_breaker_filtering servers b :=
    filter (λ s, Is_true (available b s)) servers;
  record_failure servers b reason :=
    Ok {| blocked := names servers ++ blocked b; threshold := threshold b |};
  record_success servers b :=
    Ok {| blocked := filter (λ n, n ∉ names servers) (blocked b);
          threshold := threshold b |};
  record_event servers b event error_msg := b;
  max_failures := threshold;
  setup_mcp_client servers b := (Ok (Some (names servers)), b);
  convert_tools_to_functions client := Ok {[ "lookup" := () ]};
  get_server_names := Ok;
  trim_message_history messages n :=
    drop (length messages - Z.to_nat n) messages;
  get_error_details e := Ok (err_class e, "MCP connection failed");
  json_loads := decode;
  execute_function_with_retry name args functions max_retries :=
    ([Stats "increment_calls"; Breaker_event "success" ""],
     Ok (ToolResult "{'result': '42'}" (Some "42")));
  raw_chunk_type c := Some c
|}.

Definition server (name : string) : Server :=
  {| server_name := Some name; server_transport := "stdio";
     server_params := "" |}.

Definition tool (type name : string) : Tool :=
  {| tool_type := Some type; tool_name := Some name; tool_body := "" |}.

(** A fresh handler over two servers, with a breaker of threshold 3. *)
Definition fresh (blocked_servers : list string) : Handler collaborators :=
  @Build_Handler collaborators
    (* mcp_servers *) [server "alpha"; server "beta"]
    (* _mcp_state *) NOT_INITIALIZED
    (* _mcp_permanently_blocked *) false
    (* _mcp_connection_failure_notified *) false
    (* _mcp_circuit_breaker_notified *) false
    (* _circuit_breakers_enabled *) true
    (* _mcp_tools_circuit_breaker *) (Some (Build_breaker blocked_servers 3))
    (* _mcp_client *) None
    (* functions *) ∅
    (* _mcp_connection_status_chunk *) None
    (* _mcp_tool_calls_count *) 0
    (* _mcp_tool_failures *) 0
    (* _max_mcp_message_history *) 200
    (* _last_mcp_servers_used *) []
    (* _servers_signature *) None
    (* effects *) [].

(** The session after a successful setup. *)
Definition ready : Handler collaborators :=
  @setup_mcp_tools collaborators (fresh []).

(** Both servers are blocked by the breaker. *)
Definition all_blocked : Handler collaborators := fresh ["alpha"; "beta"].

(** The ready session after the configuration was changed to one other
    server. *)
Definition reconfigured : Handler collaborators :=
  @Build_Handler collaborators [server "gamma"] (_mcp_state ready)
    (_mcp_permanently_blocked ready) (_mcp_connection_failure_notified ready)
    (_mcp_circuit_breaker_notified ready) (_circuit_breakers_enabled ready)
    (_mcp_tools_circuit_breaker ready) (_mcp_client ready) (functions ready)
    (_mcp_connection_status_chunk ready) (_mcp_tool_calls_count ready)
    (_mcp_tool_failures ready) (_max_mcp_message_history ready)
    (_last_mcp_servers_used ready) (_servers_signature ready) (effects ready).

(** A session that gave up. *)
Definition given_up : Handler collaborators :=
  set_mcp_permanently_blocked (C := collaborators) true all_blocked.

Definition lookup_call : Call :=
  {| call_name := "lookup";
     call_arguments :=
       "{" +:+ Py.dq +:+ "q" +:+ Py.dq +:+ ":" +:+ Py.dq +:+ "x" +:+ Py.dq +:+ "}";
     call_id := Some "call_1" |}.

Definition text_chunk (content : string) : StreamChunk :=
  {| chunk_type := "content"; chunk_status := None;
     chunk_content := Some content; chunk_source := None |}.

(** The backend: two chunks that make up one [lookup] call and the
    completion while the history is empty, plain text afterwards. *)
Definition stream_of (params : ApiParams collaborators) : list string :=
  match api_extra params with
  | 0 => ["call.added"; "call.done"; "response.completed"]
  | _ => ["text"; "response.completed"]
  end.

Definition detect (chunk : string) (current : option Call)
    (captured : list Call) : exc (option Call * list Call * bool) :=
  if bool_decide (chunk = "call.added")
  then Ok (Some {| call_name := "lookup"; call_arguments := "";
                   call_id := Some "call_1" |}, captured, true)
  else if bool_decide (chunk = "call.done")
  then Ok (None, captured ++ [lookup_call], true)
  else Ok (current, captured, false).

Definition process (chunk : string) : option StreamChunk :=
  if bool_decide (chunk = "response.completed") then None
  else Some (text_chunk chunk).

Definition callbacks
    (fallback : option (list Message -> list Call -> list StreamChunk))
    : Callbacks collaborators :=
  @Build_Callbacks collaborators
    (* build_api_params_callback *)
    (Some (λ messages tools kwargs,
             @Build_ApiParams collaborators (Some tools) (length messages)))
    (* create_stream_callback *) (Some stream_of)
    (* detect_function_calls_callback *) (Some detect)
    (* process_chunk_callback *) (Some process)
    (* format_tool_result_callback *) None
    (* fallback_stream_callback *) fallback.

(** A fallback stream that answers with text and no [done] chunk. *)
Definition plain_fallback (messages : list Message) (calls : list Call)
    : list StreamChunk :=
  [text_chunk "answer without tools"].

Definition unknown_call : Call :=
  {| call_name := "search"; call_arguments := "{}"; call_id := Some "call_2" |}.

Definition malformed_call : Call :=
  {| call_name := "lookup"; call_arguments := "q=x"; call_id := Some "call_3" |}.

(** A request with a tool of each kind, and the provider's own tools: a
    hosted tool of type [mcp] and a function that shares its name with a
    registry entry. *)
Definition request : ApiParams collaborators :=
  @Build_ApiParams collaborators
    (Some [tool "mcp" "remote"; tool "function" "lookup";
           tool "function" "vote"; tool "function" "new_answer";
           tool "function" "plain"])
    0.

Definition provider_tools : list Tool :=
  [tool "mcp" "hosted"; tool "function" "lookup"; tool "web_search" "search"].

Definition coordination_tools : list Tool :=
  [tool "function" "Vote"; tool "function" "plain"; tool "function" "new_answer"].

(** The breaker of [all_blocked]. *)
Definition tripped : @Breaker collaborators :=
  Build_breaker ["alpha"; "beta"] 3.

(** Variants of the collaborators: the normalisation, the breaker's
    filtering and the client setup are given, the rest is as above. *)
Definition make
    (normalize : list Server -> exc (list Server))
    (filtering : list Server -> breaker -> list Server)
    (connect : list Server -> option breaker ->
               exc (option (list string)) * option breaker)
    : Collaborators := {|
  Client := list string;
  Breaker := breaker;
  Function := unit;
  JsonArgs := string;
  RawChunk := string;
  Kwargs := unit;
  Extra := nat;
  normalize_mcp_servers := normalize;
  separate_stdio_streamable_servers := Ok;
  apply_circuit_breaker_filtering := filtering;
  record_failure servers b reason :=
    Ok {| blocked := names servers ++ blocked b; threshold := threshold b |};
  record_success servers b :=
    Ok {| blocked := filter (λ n, n ∉ names servers) (blocked b);
          threshold := threshold b |};
  record_event servers b event error_msg := b;
  max_failures := threshold;
  setup_mcp_client := connect;
  convert_tools_to_functions client := Ok {[ "lookup" := () ]};
  get_server_names := Ok;
  trim_message_history messages n :=
    drop (length messages - Z.to_nat n) messages;
  get_error_details e := Ok (err_class e, "MCP connection failed");
  json_loads := decode;
  execute_function_with_retry name args functions max_retries :=
    ([Stats "increment_calls"; Stats "increment_failures";
      Breaker_event "failure" "timeout"; Stats "increment_calls";
      Breaker_event "success" ""],
     Ok (ToolResult "{'result': '42'}" (Some "42")));
  raw_chunk_type c := Some c
|}.

(** Servers that never answer, behind a breaker that never blocks. *)
Definition offline : Collaborators :=
  make Ok (λ servers b, servers) (λ servers b, (Ok None, b)).

(** A configuration that the normalisation rejects. *)
Definition config_error : Error :=
  {| err_class := "MCPConfigurationError"; err_text := "invalid server" |}.

Definition misconfigured : Collaborators :=
  make (λ servers, Raise config_error) (λ servers b, servers)
    (λ servers b, (Ok (Some (names servers)), b)).

(** A working backend whose tool calls fail once before they succeed. *)
Definition flaky : Collaborators :=
  make Ok (λ servers b, filter (λ s, Is_true (available b s)) servers)
    (λ servers b, (Ok (Some (names servers)), b)).

(** A session over two servers for a variant of the collaborators. *)
Definition session normalize filtering connect
    (enabled : bool) (client : option (list string))
    (registry : gmap string unit)
    : Handler (make normalize filtering connect) :=
  @Build_Handler (make normalize filtering connect)
    (* mcp_servers *) [server "alpha"; server "beta"]
    (* _mcp_state *) NOT_INITIALIZED
    (* _mcp_permanently_blocked *) false
    (* _mcp_connection_failure_notified *) false
    (* _mcp_circuit_breaker_notified *) false
    (* _circuit_breakers_enabled *) enabled
    (* _mcp_tools_circuit_breaker *) (Some (Build_breaker [] 3))
    (* _mcp_client *) client
    (* functions *) registry
    (* _mcp_connection_status_chunk *) None
    (* _mcp_tool_calls_count *) 0
    (* _mcp_tool_failures *) 0
    (* _max_mcp_message_history *) 200
    (* _last_mcp_servers_used *) []
    (* _servers_signature *) None
    (* effects *) [].

Definition offline_session : Handler offline :=
  session _ _ _ true None ∅.

Definition misconfigured_session : Handler misconfigured :=
  session _ _ _ true (Some ["alpha"]) {[ "lookup" := () ]}.

Definition unguarded_session : Handler flaky :=
  session _ _ _ false None ∅.

Definition flaky_ready : Handler flaky :=
  @setup_mcp_tools flaky (session _ _ _ true None ∅).

(** A backend that asks for the given call as long as the history is
    empty. *)
Definition detect_call (call : Call) (chunk : string) (current : option Call)
    (captured : list Call) : exc (option Call * list Call * bool) :=
  if bool_decide (chunk = "call.done")
  then Ok (None, captured ++ [call], true)
  else Ok (current, captured, false).

Definition callbacks_asking (call : Call)
    (fallback : option (list Message -> list Call -> list StreamChunk))
    : Callbacks collaborators :=
  @Build_Callbacks collaborators
    (Some (λ messages tools kwargs,
             @Build_ApiParams collaborators (Some tools) (length messages)))
    (Some stream_of) (Some (detect_call call)) (Some process) None fallback.


(** The error that started the fallback, and fallback streams: one that
    answers, and one that fails with an error of its own after its first
    chunk. *)
Definition connection_lost : Error :=
  {| err_class := "MCPConnectionError"; err_text := "connection lost" |}.

Definition rate_limited : Error :=
  {| err_class := "RateLimitError"; err_text := "too many requests" |}.

Definition answering_fallback (params : ApiParams collaborators)
    : ChunkStream :=
  {| yielded := [text_chunk "answer without tools"; done_chunk];
     raised := None |}.

Definition failing_fallback (params : ApiParams collaborators)
    : ChunkStream :=
  {| yielded := [text_chunk "partial answer"];
     raised := Some rate_limited |}.

(** The chunks that [detect] takes for itself. *)
Definition consumes (chunk : string) : bool :=
  bool_decide (chunk = "call.added") || bool_decide (chunk = "call.done").

End Sample.

(** * Properties *)

(** ** The coordination-tool policy *)

Section CoordinationPolicy.

Lemma foldl_classify_tool (tools coordination other : list Tool) :
  foldl classify_tool (coordination, other) tools
  = (coordination ++ filter is_coordination tools,
     other ++ filter (λ t, ¬ is_coordination t) tools).
Proof.
  revert coordination other.
  induction tools as [|t tools IH]; intros coordination other; simpl.
  - by rewrite !app_nil_r.
  - rewrite !filter_cons. unfold classify_tool at 2. simpl.
    destruct (decide (is_coordination t)) as [Ht|Ht].
    + rewrite (Is_true_true_1 _ Ht), IH.
      rewrite decide_False by tauto. by rewrite <- app_assoc.
    + rewrite (Is_true_false_1 _ Ht), IH.
      rewrite decide_True by done. by rewrite <- app_assoc.
Qed.

Lemma foldl_preserve_tool o e f (tools kept : list Tool) :
  foldl (preserve_tool o e f) kept tools
  = kept ++ filter (is_preserved o e f) tools.
Proof.
  revert kept.
  induction tools as [|t tools IH]; intros kept; simpl.
  - by rewrite app_nil_r.
  - rewrite filter_cons. unfold preserve_tool at 2.
    destruct (decide (is_preserved o e f t)) as [Ht|Ht].
    + rewrite (Is_true_true_1 _ Ht), IH. by rewrite <- app_assoc.
    + by rewrite (Is_true_false_1 _ Ht), IH.
Qed.

(** The filter as a list expression. *)
Lemma filter_coordination_unfold (current original : list Tool) (e f : bool) :
  _filter_coordination_tools_for_context current original e f
  = match filter is_coordination current with
    | [] => current
    | coordination =>
      filter (λ t, ¬ is_coordination t) current
      ++ filter (is_preserved original e f) coordination
    end.
Proof.
  unfold _filter_coordination_tools_for_context.
  rewrite foldl_classify_tool. simpl.
  destruct (filter is_coordination current) as [|c cs]; [done|].
  by rewrite foldl_preserve_tool.
Qed.

Lemma not_coordination_names (name : string) :
  _is_coordination_tool name = false →
  Py.lower name ≠ "vote" ∧ Py.lower name ≠ "new_answer".
Proof.
  unfold _is_coordination_tool, coordination_tool_names.
  intros H. apply bool_decide_eq_false in H.
  split; intros Heq; apply H; rewrite Heq; set_solver.
Qed.

Lemma should_preserve_inv (name : string) (original : list Tool) (e f : bool) :
  _should_preserve_coordination_tool name original e f = true →
  name ∈ map get_name original
  ∧ Py.lower name = (if e then "vote" else "new_answer").
Proof.
  unfold _should_preserve_coordination_tool.
  destruct (_is_coordination_tool name); simpl; [|done].
  case_bool_decide as Hin; [done|].
  intros H. split.
  - by apply elem_of_list_to_set in Hin.
  - destruct e; by apply bool_decide_eq_true in H.
Qed.

Lemma lower_fixes_names :
  Py.lower "vote" = "vote" ∧ Py.lower "new_answer" = "new_answer".
Proof. split; reflexivity. Qed.

(** What holds of every tool that leaves the filter. *)
Lemma filtered_tool_inv (current original : list Tool) (e f : bool) (t : Tool) :
  t ∈ _filter_coordination_tools_for_context current original e f →
  t ∈ current
  ∧ (¬ is_coordination t ∨ is_preserved original e f t).
Proof.
  rewrite filter_coordination_unfold.
  destruct (filter is_coordination current) as [|c cs] eqn:Hc.
  - intros Hin. split; [done|]. left. intros Ht.
    by eapply filter_nil_not_elem_of in Ht.
  - rewrite elem_of_app, !list_elem_of_filter.
    intros [[Hn Hin]|[Hp Hin]].
    + split; [done|]. by left.
    + split; [|by right].
      rewrite <- Hc in Hin. by apply list_elem_of_filter in Hin as [_ ?].
Qed.

(** C4. In the tool list that the coordination-tool policy returns, no
    tool is named [new_answer] (in any letter case) when existing answers
    are available, no tool is named [vote] (in any letter case) when none
    are, and the name of every coordination tool that is left is the name
    of one of the original tools. *)
Theorem coordination_policy_mutual_exclusion
    (current original : list Tool) (existing_answers_available is_final_agent : bool)
    (t : Tool) :
  t ∈ _filter_coordination_tools_for_context current original
        existing_answers_available is_final_agent →
  (existing_answers_available = true →
     get_name t ≠ "new_answer" ∧ Py.lower (get_name t) ≠ "new_answer")
  ∧ (existing_answers_available = false →
       get_name t ≠ "vote" ∧ Py.lower (get_name t) ≠ "vote")
  ∧ (is_coordination t → get_name t ∈ map get_name original).
Proof.
  intros Hin. apply filtered_tool_inv in Hin as [_ Hcase].
  assert (Hlow : (existing_answers_available = true →
                    Py.lower (get_name t) ≠ "new_answer")
                 ∧ (existing_answers_available = false →
                      Py.lower (get_name t) ≠ "vote")
                 ∧ (is_coordination t → get_name t ∈ map get_name original)).
  { destruct Hcase as [Hn|Hp].
    - unfold is_coordination in *.
      destruct (_is_coordination_tool (get_name t)) eqn:Ht; [by destruct Hn|].
      apply not_coordination_names in Ht as [? ?]. by repeat split.
    - apply Is_true_true in Hp. apply should_preserve_inv in Hp as [Ho Hl].
      repeat split; [| |done]; intros ->; rewrite Hl; done. }
  destruct Hlow as (Hnew & Hvote & Horig).
  repeat split; try done.
  - intros Heq. apply Hnew; [done|]. rewrite Heq. apply lower_fixes_names.
  - by apply Hnew.
  - intros Heq. apply Hvote; [done|]. rewrite Heq. apply lower_fixes_names.
  - by apply Hvote.
Qed.

(** C10. The filter returns a sub-list of elements of its input, and the
    tools that are not coordination tools are the same, in number and in
    order, before and after. *)
Theorem coordination_filter_frame
    (current original : list Tool) (existing_answers_available is_final_agent : bool) :
  _filter_coordination_tools_for_context current original
    existing_answers_available is_final_agent ⊆ current
  ∧ filter (λ t, ¬ is_coordination t)
      (_filter_coordination_tools_for_context current original
         existing_answers_available is_final_agent)
    = filter (λ t, ¬ is_coordination t) current.
Proof.
  split.
  - intros t Hin. by apply filtered_tool_inv in Hin as [? _].
  - rewrite filter_coordination_unfold.
    destruct (filter is_coordination current) as [|c cs] eqn:Hc; [done|].
    rewrite filter_app, <- Hc.
    rewrite (list_filter_filter _ (λ t, ¬ is_coordination t)).
    rewrite (list_filter_filter _ (is_preserved original _ _)).
    rewrite (list_filter_filter _ is_coordination).
    clear Hc.
    transitivity (filter (λ t, ¬ is_coordination t) current ++ []);
      [f_equal | by rewrite app_nil_r].
    + apply list_filter_iff. tauto.
    + induction current as [|x xs IH]; [done|].
      rewrite filter_cons. by rewrite decide_False by tauto.
Qed.

End CoordinationPolicy.

(** ** The fallback handler *)

Section Fallback.
Context `{C : Collaborators}.

Lemma stripped_not_layer_tool (h : Handler C) (t : Tool) :
  Is_true (not_mcp_type t) → Is_true (not_registered h t) → ¬ layer_tool h t.
Proof.
  unfold not_mcp_type, not_registered, layer_tool.
  intros Htype Hname [Hmcp|(n & Hn & [f Hf])].
  - apply bool_decide_unpack in Htype. by apply Htype.
  - rewrite Hn in Hname. apply bool_decide_unpack in Hname. congruence.
Qed.

(** The tools that survive the two stripping passes and the
    coordination policy. *)
Lemma kept_tools_not_layer (h : Handler C) (tools : option (list Tool))
    (is_multi : bool) (original : option (list Tool)) (e f : bool) (t : Tool) :
  t ∈ default []
        (match is_multi, original with
         | true, Some (o :: os) =>
           Some (_filter_coordination_tools_for_context
                   (default []
                      (match match tools with
                             | Some ts => Some (filter (λ t, Is_true (not_mcp_type t)) ts)
                             | None => None
                             end with
                       | Some ts => Some (filter (λ t, Is_true (not_registered h t)) ts)
                       | None => None
                       end))
                   (o :: os) e f)
         | _, _ =>
           match match tools with
                 | Some ts => Some (filter (λ t, Is_true (not_mcp_type t)) ts)
                 | None => None
                 end with
           | Some ts => Some (filter (λ t, Is_true (not_registered h t)) ts)
           | None => None
           end
         end) →
  ¬ layer_tool h t.
Proof.
  assert (Hstrip : ∀ t,
    t ∈ default []
          (match match tools with
                 | Some ts => Some (filter (λ t, Is_true (not_mcp_type t)) ts)
                 | None => None
                 end with
           | Some ts => Some (filter (λ t, Is_true (not_registered h t)) ts)
           | None => None
           end) → ¬ layer_tool h t).
  { intros t'. destruct tools as [ts|]; simpl; [|by intros ?%elem_of_nil].
    rewrite !list_elem_of_filter. intros (? & ? & _).
    by apply stripped_not_layer_tool. }
  destruct is_multi; [|by apply Hstrip].
  destruct original as [[|o os]|]; try by apply Hstrip.
  simpl. intros Hin. apply filtered_tool_inv in Hin as [Hin _].
  by apply Hstrip.
Qed.

(** C3, as the code has it. A tool of this layer (type marker [mcp], or a
    name that is a key of the functions registry) is in the parameters
    handed to the fallback stream function only if it is one of the
    provider tools that were re-attached; the tools kept from the request
    itself contain none. *)
Theorem fallback_layer_tools_come_from_provider
    (api_params : ApiParams C) (provider_tools : list Tool)
    (is_multi_agent_context is_final_agent : bool)
    (original_tools : option (list Tool)) (existing_answers_available : bool)
    (h : Handler C) (t : Tool) :
  t ∈ tools_of (build_fallback_params api_params provider_tools
                  is_multi_agent_context is_final_agent original_tools
                  existing_answers_available h) →
  layer_tool h t →
  t ∈ provider_tools.
Proof.
  unfold tools_of, build_fallback_params. simpl.
  intros Hin Hlayer.
  destruct provider_tools as [|p ps].
  - exfalso. by eapply kept_tools_not_layer.
  - simpl in Hin. apply elem_of_app in Hin as [Hin|Hin].
    + exfalso. by eapply kept_tools_not_layer.
    + by apply list_elem_of_filter in Hin as [_ ?].
Qed.

(** C6. For every error, once the error has been classified, the handler
    yields the [mcp_error] status chunk that carries the user message,
    then the inline notice that names the message and the error, then
    every chunk of the fallback stream as it is; it ends as the fallback
    stream ends, so the only exception that can leave it is one that the
    fallback stream raises, and with a fallback stream that returns it
    returns.  The failure counter is incremented and nothing else of the
    handler changes. *)
Theorem fallback_handler_output
    (error : Error) (api_params : ApiParams C) (provider_tools : list Tool)
    (stream_func : ApiParams C → ChunkStream)
    (is_multi_agent_context is_final_agent : bool)
    (original_tools : option (list Tool)) (existing_answers_available : bool)
    (h : Handler C) (log_type user_message : string) :
  get_error_details error = Ok (log_type, user_message) →
  let h' := set_mcp_tool_failures (_mcp_tool_failures h + 1)%Z h in
  let fallback :=
    stream_func
      (build_fallback_params api_params provider_tools is_multi_agent_context
         is_final_agent original_tools existing_answers_available h') in
  let result :=
    handle_mcp_error_and_fallback error api_params provider_tools stream_func
      is_multi_agent_context is_final_agent original_tools
      existing_answers_available h in
  yielded result.1
  = {| chunk_type := "mcp_status"; chunk_status := Some "mcp_error";
       chunk_content := Some user_message;
       chunk_source := Some "mcp_error" |}
      :: {| chunk_type := "content"; chunk_status := None;
            chunk_content :=
              Some (Py.nl +:+ "⚠️  " +:+ user_message +:+ " ("
                      +:+ err_text error
                      +:+ "); continuing without MCP tools" +:+ Py.nl);
            chunk_source := None |}
      :: yielded fallback
  ∧ raised result.1 = raised fallback
  ∧ result.2 = h'.
Proof.
  intros Hdetails. unfold handle_mcp_error_and_fallback.
  by rewrite Hdetails.
Qed.

(** When the classification of the error raises, that exception leaves
    the handler before any chunk is yielded. *)
Lemma fallback_handler_details_raise
    (error e : Error) (api_params : ApiParams C) (provider_tools : list Tool)
    (stream_func : ApiParams C → ChunkStream)
    (is_multi_agent_context is_final_agent : bool)
    (original_tools : option (list Tool)) (existing_answers_available : bool)
    (h : Handler C) :
  get_error_details error = Raise e →
  (handle_mcp_error_and_fallback error api_params provider_tools stream_func
     is_multi_agent_context is_final_agent original_tools
     existing_answers_available h).1
  = {| yielded := []; raised := Some e |}.
Proof.
  intros Hdetails. unfold handle_mcp_error_and_fallback. by rewrite Hdetails.
Qed.

End Fallback.

(** ** Session setup *)

Section Setup.
Context `{C : Collaborators}.

Lemma setup_ready_noop (h : Handler C) :
  _mcp_state h = READY → setup_mcp_tools h = h.
Proof.
  intros Hready. unfold setup_mcp_tools.
  destruct (mcp_servers h); [done|].
  by rewrite bool_decide_eq_true_2.
Qed.

Lemma setup_blocked_noop (h : Handler C) :
  _mcp_permanently_blocked h = true → setup_mcp_tools h = h.
Proof.
  intros Hblocked. unfold setup_mcp_tools.
  destruct (mcp_servers h); [done|].
  case_bool_decide; [done|]. by rewrite Hblocked.
Qed.

(** C7. Setup on a session that is Ready with an unchanged signature, or
    that is permanently blocked, returns the session as it was: every
    attribute, and with them the record of connection attempts, is
    unchanged. *)
Theorem setup_idempotent (h : Handler C) :
  (_mcp_state h = READY ∧ signature_unchanged h)
  ∨ _mcp_permanently_blocked h = true →
  setup_mcp_tools h = h ∧ connection_attempts (setup_mcp_tools h) = connection_attempts h.
Proof.
  intros [[Hready _]|Hblocked].
  - by rewrite setup_ready_noop.
  - by rewrite setup_blocked_noop.
Qed.

Lemma connection_attempts_disconnect (h : Handler C) :
  connection_attempts (add_effect Disconnect h) = connection_attempts h.
Proof.
  unfold connection_attempts, add_effect. simpl.
  rewrite omap_app. simpl. by rewrite app_nil_r.
Qed.

Lemma after_signature_check_frame (new_signature : list string) (h : Handler C) :
  let h1 := after_signature_check new_signature h in
  _mcp_tools_circuit_breaker h1 = _mcp_tools_circuit_breaker h
  ∧ _circuit_breakers_enabled h1 = _circuit_breakers_enabled h
  ∧ _mcp_circuit_breaker_notified h1 = _mcp_circuit_breaker_notified h
  ∧ _mcp_permanently_blocked h1 = _mcp_permanently_blocked h
  ∧ mcp_servers h1 = mcp_servers h
  ∧ connection_attempts h1 = connection_attempts h
  ∧ (_mcp_state h = NOT_INITIALIZED → _mcp_state h1 = NOT_INITIALIZED).
Proof.
  unfold after_signature_check. case_bool_decide; [|done].
  simpl. destruct (_mcp_client h) as [c|] eqn:Hc; [|done].
  unfold cleanup_mcp. simpl. rewrite Hc. simpl.
  repeat split; try done.
  apply (connection_attempts_disconnect
           (set_mcp_state NOT_INITIALIZED
              (set_servers_signature (Some new_signature) h))).
Qed.

(** One pass through the loop when the breaker rejects every server. *)
Lemma setup_attempts_all_blocked (remaining : nat) (max_attempts : Z)
    (servers : list Server) (cb : Breaker) (h : Handler C) :
  _mcp_tools_circuit_breaker h = Some cb →
  apply_circuit_breaker_filtering servers cb = [] →
  setup_attempts (S remaining) 1 max_attempts servers h
  = (if (1 >=? max_attempts)%Z
     then set_mcp_permanently_blocked true
     else id)
      (if _mcp_circuit_breaker_notified h then h
       else set_mcp_circuit_breaker_notified true h).
Proof.
  intros Hcb Hfilter. simpl. rewrite Hcb, Hfilter.
  by destruct (1 >=? max_attempts)%Z.
Qed.

(** C1, as the code has it. When the breaker's filtering rejects every
    candidate server, a setup invocation stops at its first attempt
    without any connection attempt; it raises the one-shot notification
    flag, and it marks the session permanently blocked exactly when that
    first attempt is also the last one, that is when [max_failures] is 1.
    Once the session is permanently blocked, setup is a no-op. *)
Theorem setup_all_blocked (h : Handler C) (cb : Breaker)
    (normalized_servers mcp_tools_servers : list Server) :
  mcp_servers h ≠ [] →
  _mcp_state h = NOT_INITIALIZED →
  _mcp_permanently_blocked h = false →
  _circuit_breakers_enabled h = true →
  _mcp_tools_circuit_breaker h = Some cb →
  normalize_mcp_servers (mcp_servers h) = Ok normalized_servers →
  separate_stdio_streamable_servers normalized_servers = Ok mcp_tools_servers →
  mcp_tools_servers ≠ [] →
  apply_circuit_breaker_filtering mcp_tools_servers cb = [] →
  let h' := setup_mcp_tools h in
  _mcp_permanently_blocked h' = bool_decide (max_failures cb = 1%Z)
  ∧ ((1 ≤ max_failures cb)%Z → _mcp_circuit_breaker_notified h' = true)
  ∧ connection_attempts h' = connection_attempts h
  ∧ _mcp_state h' = NOT_INITIALIZED
  ∧ (_mcp_permanently_blocked h' = true → setup_mcp_tools h' = h').
Proof.
  intros Hservers Hstate Hblocked Henabled Hcb Hnorm Hsep Hne Hfilter h'.
  assert (Hlast : _mcp_permanently_blocked h' = true → setup_mcp_tools h' = h')
    by apply setup_blocked_noop.
  revert Hlast. subst h'. unfold setup_mcp_tools.
  destruct (mcp_servers h) as [|s ss] eqn:Hs; [done|].
  rewrite Hstate, Hblocked, Hnorm. simpl.
  rewrite andb_false_r.
  destruct (after_signature_check_frame (signature_of normalized_servers) h)
    as (Hcb1 & Hen1 & Hnot1 & Hbl1 & _ & Hconn1 & Hst1).
  set (h1 := after_signature_check (signature_of normalized_servers) h) in *.
  rewrite Hsep.
  destruct mcp_tools_servers as [|t ts]; [done|].
  rewrite Hen1, Henabled, Hcb1, Hcb.
  destruct (Z.to_nat (max_failures cb)) as [|remaining] eqn:Hmax.
  - simpl. intros Hlast. rewrite Hbl1, Hblocked, Hconn1.
    rewrite bool_decide_eq_false_2 by lia.
    repeat split; try done; [lia | by apply Hst1].
  - rewrite (setup_attempts_all_blocked _ _ _ cb) by (by rewrite ?Hcb1).
    intros Hlast.
    destruct (1 >=? max_failures cb)%Z eqn:Hge.
    + assert (max_failures cb = 1%Z) as Hone by lia.
      rewrite bool_decide_eq_true_2 by done.
      destruct (_mcp_circuit_breaker_notified h1) eqn:Hn; simpl;
        rewrite ?Hn; repeat split; try done; by apply Hst1.
    + rewrite bool_decide_eq_false_2 by lia.
      destruct (_mcp_circuit_breaker_notified h1) eqn:Hn; simpl;
        rewrite ?Hn, ?Hbl1, ?Hblocked;  repeat split; try done; by apply Hst1.
Qed.

End Setup.

(** ** The streaming engine *)

Section Engine.
Context `{C : Collaborators}.

Lemma run_callback_frame (h : Handler C) (a : ManagerAction) :
  functions (run_callback h a) = functions h
  ∧ effects (run_callback h a) = effects h.
Proof.
  destruct a as [action|event error_msg]; simpl.
  - unfold stats_callback. by repeat case_bool_decide.
  - unfold circuit_breaker_callback.
    destruct (_mcp_tools_circuit_breaker h); [|done]. by case_bool_decide.
Qed.

Lemma foldl_run_callback_frame (actions : list ManagerAction) (h : Handler C) :
  functions (foldl run_callback h actions) = functions h
  ∧ effects (foldl run_callback h actions) = effects h.
Proof.
  revert h. induction actions as [|a actions IH]; intros h; [done|].
  simpl. destruct (IH (run_callback h a)) as [-> ->].
  apply run_callback_frame.
Qed.

(** What one call of [execute_mcp_function_with_retry] does to the
    registry and to the recorded effects. *)
Lemma execute_with_retry_frame (name arguments_json : string) (r : Z)
    (h : Handler C) :
  let h' := (execute_mcp_function_with_retry name arguments_json r h).2 in
  functions h' = functions h
  ∧ effects h'
    = effects h ++ match json_loads arguments_json with
                   | Ok args => [Invoke name args]
                   | Raise _ => []
                   end.
Proof.
  unfold execute_mcp_function_with_retry.
  destruct (json_loads arguments_json) as [args|e]; simpl.
  - destruct (execute_function_with_retry name args _ r) as [actions result].
    pose proof (foldl_run_callback_frame actions
                  (add_effect (Invoke name args) h)) as [Hf He].
    destruct result as [[error|repr text]|e]; simpl; by rewrite Hf, He.
  - by rewrite app_nil_r.
Qed.

Lemma execute_with_retry_malformed (name arguments_json : string) (r : Z)
    (h : Handler C) (e : Error) :
  json_loads arguments_json = Raise e →
  execute_mcp_function_with_retry name arguments_json r h
  = (Ok ("Error: Invalid JSON arguments: " +:+ err_text e,
         ErrorDict ("Error: Invalid JSON arguments: " +:+ err_text e)), h).
Proof. intros He. unfold execute_mcp_function_with_retry. by rewrite He. Qed.

Lemma invalid_json_error_prefix (text : string) :
  Py.startswith ("Error: Invalid JSON arguments: " +:+ text) "Error:" = true.
Proof. reflexivity. Qed.

(** The core of the loop state after a call depends on the core before. *)
Lemma execute_call_core (cbs : Callbacks C) (s1 s2 : BatchState C) (call : Call) :
  batch_core s1 = batch_core s2 →
  batch_core (execute_call cbs s1 call) = batch_core (execute_call cbs s2 call).
Proof.
  destruct s1 as [c1 m1 e1 h1], s2 as [c2 m2 e2 h2].
  unfold batch_core. simpl. intros [= -> -> ->].
  unfold execute_call. simpl.
  destruct (in_registry h2 call); [|done].
  destruct (execute_mcp_function_with_retry _ _ _ _) as [[[result obj]|err] h'];
    simpl; [|done].
  by destruct (Py.startswith result "Error:").
Qed.

Lemma foldl_execute_call_core (cbs : Callbacks C) (calls : list Call)
    (s1 s2 : BatchState C) :
  batch_core s1 = batch_core s2 →
  batch_core (foldl (execute_call cbs) s1 calls)
  = batch_core (foldl (execute_call cbs) s2 calls).
Proof.
  revert s1 s2. induction calls as [|c calls IH]; intros s1 s2 H; [done|].
  simpl. apply IH. by apply execute_call_core.
Qed.

(** A call with malformed arguments leaves the core as it is. *)
Lemma execute_call_malformed (cbs : Callbacks C) (s : BatchState C)
    (call : Call) (e : Error) :
  json_loads (call_arguments call) = Raise e →
  batch_core (execute_call cbs s call) = batch_core s.
Proof.
  intros He. unfold execute_call.
  destruct (in_registry (batch_handler s) call); [|done].
  rewrite (execute_with_retry_malformed _ _ _ _ e He).
  by rewrite invalid_json_error_prefix.
Qed.

Lemma execute_call_frame (cbs : Callbacks C) (s : BatchState C) (call : Call) :
  let h := batch_handler s in
  let h' := batch_handler (execute_call cbs s call) in
  functions h' = functions h
  ∧ effects h'
    = effects h ++ (if in_registry h call
                    then match json_loads (call_arguments call) with
                         | Ok args => [Invoke (call_name call) args]
                         | Raise _ => []
                         end
                    else []).
Proof.
  simpl. unfold execute_call.
  destruct (in_registry (batch_handler s) call); [|by rewrite app_nil_r].
  pose proof (execute_with_retry_frame (call_name call) (call_arguments call)
                3 (batch_handler s)) as Hframe.
  destruct (execute_mcp_function_with_retry _ _ _ _) as [[[result obj]|err] h'];
    simpl in *; [|done].
  by destruct (Py.startswith result "Error:").
Qed.

Lemma foldl_execute_call_frame (cbs : Callbacks C) (calls : list Call)
    (s : BatchState C) :
  let s' := foldl (execute_call cbs) s calls in
  functions (batch_handler s') = functions (batch_handler s)
  ∧ ∃ later, effects (batch_handler s') = effects (batch_handler s) ++ later.
Proof.
  revert s. induction calls as [|c calls IH]; intros s; simpl.
  - split; [done|]. exists []. by rewrite app_nil_r.
  - destruct (IH (execute_call cbs s c)) as [Hf [later He]].
    destruct (execute_call_frame cbs s c) as [Hf1 He1].
    split; [by rewrite Hf|].
    eexists. rewrite He, He1, <- app_assoc. reflexivity.
Qed.

(** Every well-formed call of the batch reaches the execution manager,
    whatever the other calls of the batch are. *)
Lemma batch_invokes (cbs : Callbacks C) (calls : list Call) (s : BatchState C)
    (call : Call) (args : JsonArgs) :
  call ∈ calls →
  Is_true (in_registry (batch_handler s) call) →
  json_loads (call_arguments call) = Ok args →
  Invoke (call_name call) args
    ∈ effects (batch_handler (foldl (execute_call cbs) s calls)).
Proof.
  revert s. induction calls as [|c calls IH]; intros s Hin Hreg Hargs.
  - by apply elem_of_nil in Hin.
  - simpl. destruct (execute_call_frame cbs s c) as [Hf He].
    apply elem_of_cons in Hin as [<-|Hin].
    + destruct (foldl_execute_call_frame cbs calls (execute_call cbs s call))
        as [_ [later ->]].
      rewrite He, (Is_true_true_1 _ Hreg), Hargs.
      set_solver.
    + apply IH; [done| |done].
      unfold in_registry in *. by rewrite Hf.
Qed.

(** C9. Arguments that [json.loads] rejects give the pair of an
    [Error:]-prefixed text and an error object, with the handler (and so
    the record of calls to the execution manager and the counters)
    unchanged; in a batch, such a call changes neither the history nor
    the handler that the other calls see, and every other call of the
    batch that is registered and well-formed is handed to the execution
    manager. *)
Theorem malformed_arguments_are_reported (arguments_json : string) (e : Error) :
  json_loads arguments_json = Raise e →
  let error_str := "Error: Invalid JSON arguments: " +:+ err_text e in
  Py.startswith error_str "Error:" = true
  ∧ (∀ function_name max_retries (h : Handler C),
       execute_mcp_function_with_retry function_name arguments_json
         max_retries h
       = (Ok (error_str, ErrorDict error_str), h))
  ∧ (∀ cbs function_name id before after messages (h : Handler C),
       let bad := {| call_name := function_name;
                     call_arguments := arguments_json; call_id := id |} in
       batch_core (execute_batch cbs (before ++ bad :: after) messages h)
       = batch_core (execute_batch cbs (before ++ after) messages h)
       ∧ ∀ call args,
           call ∈ before ++ after →
           Is_true (in_registry h call) →
           json_loads (call_arguments call) = Ok args →
           (call_name call, args)
             ∈ invocations
                 (batch_handler
                    (execute_batch cbs (before ++ bad :: after) messages h))).
Proof.
  intros He error_str. split; [apply invalid_json_error_prefix|].
  split; [intros; by apply execute_with_retry_malformed|].
  intros cbs function_name id before after messages h bad.
  assert (Hcore :
    batch_core (execute_batch cbs (before ++ bad :: after) messages h)
    = batch_core (execute_batch cbs (before ++ after) messages h)).
  { unfold execute_batch. rewrite !foldl_app. simpl.
    apply foldl_execute_call_core. by apply (execute_call_malformed _ _ _ e). }
  split; [done|].
  intros call args Hin Hreg Hargs.
  injection Hcore as _ _ ->.
  unfold invocations. apply list_elem_of_omap.
  exists (Invoke (call_name call) args). split; [|done].
  by apply batch_invokes.
Qed.

Lemma unknown_call_not_registered (h : Handler C) (call : Call) :
  functions h !! call_name call = None ↔ ¬ Is_true (in_registry h call).
Proof.
  unfold in_registry. rewrite bool_decide_spec.
  rewrite eq_None_not_Some. done.
Qed.


Lemma ends_with_done_snoc (chunks : list StreamChunk) :
  ends_with_done (chunks ++ [done_chunk]).
Proof. apply last_snoc. Qed.

(** An activation that returns without the fallback callback has just
    yielded [done]. *)
Lemma engine_turn_finished (current_messages : list Message)
    (tools : list Tool) (captured : list Call) (cbs : Callbacks C)
    (kwargs : Kwargs) (h h' : Handler C) (chunks : list StreamChunk) :
  engine_turn current_messages tools captured cbs kwargs h
  = (chunks, h', Finished) →
  ¬ delegates_to_fallback h captured cbs →
  ends_with_done chunks.
Proof.
  unfold engine_turn. intros Hturn Hnot.
  destruct (execute_captured cbs current_messages captured h)
    as [stop hs|pre updated hs] eqn:Hstep.
  - injection Hturn as <- _. revert Hstep. unfold execute_captured.
    destruct captured as [|c cs]; [done|].
    destruct (filter _ (c :: cs)) as [|u us] eqn:Hfilter.
    + repeat case_match; intros [= <- _]; try done;
        apply (ends_with_done_snoc [blocked_chunk]).
    + destruct (fallback_stream_callback cbs) as [fallback|] eqn:Hfb;
        [|by intros [= <- _]].
      exfalso. apply Hnot. split; [|by rewrite Hfb].
      exists u. assert (Hu : u ∈ filter (λ call, ¬ Is_true (in_registry h call))
                               (c :: cs)) by (rewrite Hfilter; set_solver).
      apply list_elem_of_filter in Hu as [Hu ?]. split; [done|].
      by apply unknown_call_not_registered.
  - revert Hturn. repeat case_match; intros [= <- _];
      rewrite ?app_assoc; try apply ends_with_done_snoc.
    rewrite (app_assoc _ [session_complete_chunk] [done_chunk]).
    apply ends_with_done_snoc.
Qed.

(** When the engine recurses at most [k] times and the turn is not handed
    to the fallback callback, the last chunk of its stream is [done]. *)
Lemma engine_bounded_turns_end_with_done (k : nat)
    (current_messages : list Message) (tools : list Tool)
    (captured : list Call) (cbs : Callbacks C) (kwargs : Kwargs)
    (h : Handler C) :
  turns_bounded k current_messages tools captured cbs kwargs h →
  ¬ delegates_to_fallback h captured cbs →
  ∃ chunks h',
    execute_mcp_functions_and_recurse (S k) current_messages tools captured
      cbs kwargs h = Some (chunks, h')
    ∧ ends_with_done chunks.
Proof.
  revert current_messages captured cbs h.
  induction k as [|k IH]; intros current_messages captured cbs h Hbound Hnot.
  - simpl in *.
    destruct (engine_turn current_messages tools captured cbs kwargs h)
      as [[chunks h'] [|updated next]] eqn:Hturn; [|done].
    exists chunks, h'. split; [done|]. by eapply engine_turn_finished.
  - cbn [turns_bounded execute_mcp_functions_and_recurse] in *.
    destruct (engine_turn current_messages tools captured cbs kwargs h)
      as [[chunks h'] [|updated next]] eqn:Hturn.
    + exists chunks, h'. split; [done|]. by eapply engine_turn_finished.
    + destruct (IH updated next (without_fallback cbs) h' Hbound)
        as (rest & h'' & Hrun & Hdone).
      { intros [_ [f Hf]]. discriminate Hf. }
      cbn [execute_mcp_functions_and_recurse] in Hrun. rewrite Hrun.
      exists (chunks ++ rest), h''. split; [done|].
      unfold ends_with_done in *. by rewrite last_app, Hdone.
Qed.



End Engine.

(** ** The properties on concrete sessions *)

Section Concrete.
#[local] Existing Instance Sample.collaborators.

Lemma coordination_policy_mutual_exclusion_witness :
  Sample.tool "function" "Vote"
    ∈ _filter_coordination_tools_for_context Sample.coordination_tools
        Sample.coordination_tools true false
  ∧ ∀ t,
      t ∈ _filter_coordination_tools_for_context Sample.coordination_tools
            Sample.coordination_tools true false →
      get_name t ≠ "new_answer".
Proof.
  split; [compute_done|].
  intros t Hin.
  destruct (coordination_policy_mutual_exclusion _ _ _ _ _ Hin) as (Hnew & _).
  by apply Hnew.
Defined.

Lemma fallback_layer_tools_come_from_provider_witness :
  Sample.tool "mcp" "hosted"
    ∈ tools_of (build_fallback_params Sample.request Sample.provider_tools
                  false false None false Sample.ready)
  ∧ layer_tool Sample.ready (Sample.tool "mcp" "hosted")
  ∧ Sample.tool "mcp" "hosted" ∈ Sample.provider_tools.
Proof.
  assert (Hin : Sample.tool "mcp" "hosted"
                  ∈ tools_of (build_fallback_params Sample.request
                                Sample.provider_tools false false None false
                                Sample.ready)) by compute_done.
  assert (Hlayer : layer_tool Sample.ready (Sample.tool "mcp" "hosted"))
    by (left; reflexivity).
  split; [exact Hin|]. split; [exact Hlayer|].
  exact (fallback_layer_tools_come_from_provider _ _ _ _ _ _ _ _ Hin Hlayer).
Defined.

(** The request parameters handed to the fallback stream function can
    hold tools of this layer: here the provider's hosted [mcp] tool and
    its [lookup] function, whose name is a key of the registry. *)
Lemma fallback_params_hold_provider_layer_tools :
  ¬ ∀ t,
      t ∈ tools_of (build_fallback_params Sample.request Sample.provider_tools
                      false false None false Sample.ready) →
      ¬ layer_tool Sample.ready t.
Proof.
  intros Hclean.
  apply (Hclean (Sample.tool "function" "lookup")); [compute_done|].
  right. exists "lookup". split; [reflexivity|]. compute_done.
Qed.

Lemma setup_idempotent_witness :
  ((_mcp_state Sample.ready = READY ∧ signature_unchanged Sample.ready)
   ∨ _mcp_permanently_blocked Sample.ready = true)
  ∧ setup_mcp_tools Sample.ready = Sample.ready.
Proof.
  assert (H : (_mcp_state Sample.ready = READY
               ∧ signature_unchanged Sample.ready)
              ∨ _mcp_permanently_blocked Sample.ready = true).
  { left. split; [reflexivity|].
    exists (mcp_servers Sample.ready). split; reflexivity. }
  split; [exact H|]. exact (proj1 (setup_idempotent Sample.ready H)).
Defined.

(** C2 on a session that is Ready: the configured servers have changed,
    so the signature differs from the stored one, and setup returns the
    session as it was, still Ready, with its client and its registry. *)
Lemma setup_keeps_ready_session_on_new_signature :
  _mcp_state Sample.reconfigured = READY
  ∧ ¬ signature_unchanged Sample.reconfigured
  ∧ setup_mcp_tools Sample.reconfigured = Sample.reconfigured.
Proof.
  split; [reflexivity|]. split.
  - intros (normalized & Hnorm & Hsig).
    injection Hnorm as <-. vm_compute in Hsig. discriminate Hsig.
  - by apply setup_ready_noop.
Qed.

Lemma setup_all_blocked_witness :
  apply_circuit_breaker_filtering (mcp_servers Sample.all_blocked)
    Sample.tripped = []
  ∧ _mcp_permanently_blocked (setup_mcp_tools Sample.all_blocked) = false
  ∧ connection_attempts (setup_mcp_tools Sample.all_blocked) = [].
Proof.
  split; [reflexivity|].
  destruct (setup_all_blocked Sample.all_blocked
              Sample.tripped
              (mcp_servers Sample.all_blocked) (mcp_servers Sample.all_blocked))
    as (Hblocked & _ & Hconn & _);
    try reflexivity; try discriminate.
  split; [exact Hblocked | exact Hconn].
Defined.

(** With a threshold of 3 and every server rejected by the breaker, no
    number of setup calls makes the session permanently blocked. *)
Lemma setup_all_blocked_never_gives_up :
  max_failures Sample.tripped = 3%Z
  ∧ apply_circuit_breaker_filtering (mcp_servers Sample.all_blocked)
      Sample.tripped = []
  ∧ ∀ n, _mcp_permanently_blocked
           (Nat.iter n setup_mcp_tools Sample.all_blocked) = false.
Proof.
  split; [reflexivity|]. split; [reflexivity|].
  assert (Hfix : setup_mcp_tools (setup_mcp_tools Sample.all_blocked)
                 = setup_mcp_tools Sample.all_blocked)
    by (vm_compute; reflexivity).
  assert (Hiter : ∀ n,
            Nat.iter n setup_mcp_tools Sample.all_blocked = Sample.all_blocked
            ∨ Nat.iter n setup_mcp_tools Sample.all_blocked
              = setup_mcp_tools Sample.all_blocked).
  { induction n as [|n [IH|IH]]; simpl; [by left | | ]; rewrite IH; by right. }
  intros n. destruct (Hiter n) as [-> | ->]; reflexivity.
Qed.


Lemma malformed_arguments_are_reported_witness :
  @json_loads Sample.collaborators "q=x" = Raise Sample.decode_error
  ∧ execute_mcp_function_with_retry "lookup" "q=x" 3 Sample.ready
    = (Ok ("Error: Invalid JSON arguments: "
             +:+ err_text Sample.decode_error,
           ErrorDict ("Error: Invalid JSON arguments: "
                        +:+ err_text Sample.decode_error)),
       Sample.ready)
  ∧ invocations
      (batch_handler
         (execute_batch (Sample.callbacks None)
            [Sample.malformed_call; Sample.lookup_call] [] Sample.ready))
    = [("lookup", call_arguments Sample.lookup_call)].
Proof.
  assert (H : @json_loads Sample.collaborators "q=x" = Raise Sample.decode_error)
    by reflexivity.
  split; [exact H|].
  destruct (malformed_arguments_are_reported "q=x" Sample.decode_error H)
    as (_ & Hexec & _).
  split; [apply Hexec | reflexivity].
Defined.



(** The engine over two turns: the backend asks for [lookup] once and
    then answers in text. *)
Example engine_two_turns :
  turns_bounded 1 [] [] [] (Sample.callbacks None) () Sample.ready
  ∧ ∃ chunks h',
      execute_mcp_functions_and_recurse 2 [] [] [] (Sample.callbacks None) ()
        Sample.ready = Some (chunks, h')
      ∧ ends_with_done chunks.
Proof.
  assert (H1 : turns_bounded 1 [] [] [] (Sample.callbacks None) () Sample.ready)
    by (vm_compute; exact I).
  split; [exact H1|].
  apply (engine_bounded_turns_end_with_done 1 [] [] [] (Sample.callbacks None)
           () Sample.ready H1).
  intros [_ [f Hf]]. discriminate Hf.
Qed.

(** C6 on the sample session: the two chunks of the handler, then the
    answer of the fallback. *)
Lemma fallback_handler_output_witness :
  get_error_details Sample.connection_lost
    = Ok ("MCPConnectionError", "MCP connection failed")
  ∧ (handle_mcp_error_and_fallback Sample.connection_lost Sample.request
       Sample.provider_tools Sample.answering_fallback false false None false
       Sample.ready).1
    = {| yielded :=
           [mcp_status_chunk "mcp_error" "MCP connection failed" "mcp_error";
            Sample.text_chunk
              (Py.nl +:+ "⚠️  MCP connection failed (connection lost); "
                 +:+ "continuing without MCP tools" +:+ Py.nl);
            Sample.text_chunk "answer without tools"; done_chunk];
         raised := None |}.
Proof.
  assert (H : get_error_details Sample.connection_lost
              = Ok ("MCPConnectionError", "MCP connection failed"))
    by reflexivity.
  split; [exact H|].
  destruct (fallback_handler_output Sample.connection_lost Sample.request
              Sample.provider_tools Sample.answering_fallback false false None
              false Sample.ready _ _ H) as (Hyielded & Hraised & _).
  destruct (handle_mcp_error_and_fallback Sample.connection_lost
              Sample.request Sample.provider_tools Sample.answering_fallback
              false false None false Sample.ready).1 as [chunks outcome].
  simpl in Hyielded, Hraised. rewrite Hyielded, Hraised. reflexivity.
Defined.

(** A fallback stream that fails: its exception leaves the handler after
    the chunks forwarded so far. *)
Example fallback_exception_escapes :
  (handle_mcp_error_and_fallback Sample.connection_lost Sample.request
     Sample.provider_tools Sample.failing_fallback false false None false
     Sample.ready).1
  = {| yielded :=
         [mcp_status_chunk "mcp_error" "MCP connection failed" "mcp_error";
          notice_chunk "MCP connection failed" Sample.connection_lost;
          Sample.text_chunk "partial answer"];
       raised := Some Sample.rate_limited |}.
Proof. reflexivity. Qed.

(** The first setup call with both servers blocked: one notification,
    the session still uninitialised and not yet permanently blocked. *)
Example first_setup_call_all_blocked :
  let h := setup_mcp_tools Sample.all_blocked in
  _mcp_circuit_breaker_notified h = true
  ∧ _mcp_state h = NOT_INITIALIZED
  ∧ _mcp_permanently_blocked h = false
  ∧ connection_attempts h = [].
Proof. repeat split; reflexivity. Qed.

(** One [lookup] call detected over two chunks, then the completion: the
    call is made once, its record and its result are appended to the
    history that the next request is built from, and the stream ends
    with [done]. *)
Example lookup_end_to_end :
  ∃ chunks h,
    execute_mcp_functions_and_recurse 2 [] [] [] (Sample.callbacks None) ()
      Sample.ready = Some (chunks, h)
    ∧ invocations h = [("lookup", call_arguments Sample.lookup_call)]
    ∧ _mcp_tool_calls_count h = 1%Z
    ∧ Sample.text_chunk "text" ∈ chunks
    ∧ last chunks = Some done_chunk.
Proof.
  eexists _, _. split; [vm_compute; reflexivity|].
  repeat split; try reflexivity. compute_done.
Qed.

(** Setup on a session that gave up leaves it as it is. *)
Example setup_after_giving_up :
  setup_mcp_tools Sample.given_up = Sample.given_up.
Proof. by apply setup_blocked_noop. Qed.

End Concrete.

(** * Further properties of the handler *)

(** ** Server signatures *)

Section Signature.

Lemma string_compare_refl (s : string) : String.compare s s = Eq.
Proof.
  induction s as [|a s IH]; [done|]. simpl.
  unfold Ascii.compare. by rewrite N.compare_refl.
Qed.

Lemma string_compare_lt_trans (s1 s2 s3 : string) :
  String.compare s1 s2 = Lt → String.compare s2 s3 = Lt →
  String.compare s1 s3 = Lt.
Proof.
  revert s2 s3.
  induction s1 as [|a s1 IH]; intros [|b s2] [|c s3]; simpl; try done.
  destruct (Ascii.compare a b) eqn:Hab; try done;
    destruct (Ascii.compare b c) eqn:Hbc; try done; intros H12 H23.
  - apply Ascii.compare_eq_iff in Hab as ->. rewrite Hbc. by eapply IH.
  - apply Ascii.compare_eq_iff in Hab as ->. by rewrite Hbc.
  - apply Ascii.compare_eq_iff in Hbc as ->. by rewrite Hab.
  - unfold Ascii.compare in *.
    assert (Hac : (N_of_ascii a ?= N_of_ascii c)%N = Lt)
      by exact (N.lt_trans _ _ _ Hab Hbc).
    by rewrite Hac.
Qed.

Lemma name_le_compare (x y : string) :
  name_le x y ↔ String.compare x y = Eq ∨ String.compare x y = Lt.
Proof.
  unfold name_le, String.leb.
  destruct (String.compare x y); intuition congruence.
Qed.

#[local] Instance name_le_transitive : Transitive name_le.
Proof.
  intros x y z Hxy Hyz. apply name_le_compare in Hxy, Hyz.
  apply name_le_compare.
  destruct Hxy as [Hxy|Hxy], Hyz as [Hyz|Hyz].
  - apply String.compare_eq_iff in Hxy as ->. by left.
  - apply String.compare_eq_iff in Hxy as ->. by right.
  - apply String.compare_eq_iff in Hyz as <-. by right.
  - right. by eapply string_compare_lt_trans.
Qed.

#[local] Instance name_le_antisymm : AntiSymm (=) name_le.
Proof. intros x y Hxy Hyx. by apply String.leb_antisym. Qed.

Lemma name_le_flip (x y : string) : String.leb x y = false → name_le y x.
Proof.
  intros Hxy. destruct (String.leb_total x y) as [H|H]; [congruence|done].
Qed.

Lemma insert_sorted_perm (x : string) (l : list string) :
  Py.insert_sorted x l ≡ₚ x :: l.
Proof.
  induction l as [|y l IH]; simpl; [done|].
  destruct (String.leb x y); [done|].
  rewrite IH. apply Permutation_swap.
Qed.

Lemma insert_sorted_Sorted (x : string) (l : list string) :
  Sorted name_le l → Sorted name_le (Py.insert_sorted x l).
Proof.
  induction l as [|y l IH]; simpl; intros Hl; [by repeat constructor|].
  destruct (String.leb x y) eqn:Hxy;
    [constructor; [exact Hl | constructor; exact Hxy] |].
  apply Sorted_inv in Hl as [Hl Hhd].
  constructor; [by apply IH|].
  destruct l as [|z l]; simpl.
  - constructor. by apply name_le_flip.
  - destruct (String.leb x z).
    + constructor. by apply name_le_flip.
    + constructor. by apply HdRel_inv in Hhd.
Qed.

Lemma sorted_perm (l : list string) : Py.sorted l ≡ₚ l.
Proof.
  induction l as [|x l IH]; simpl; [done|].
  unfold Py.sorted in *. simpl. by rewrite insert_sorted_perm, IH.
Qed.

Lemma sorted_Sorted (l : list string) : Sorted name_le (Py.sorted l).
Proof.
  induction l as [|x l IH]; simpl; [constructor|].
  by apply insert_sorted_Sorted.
Qed.

(** X1. The signature of a list of servers does not depend on the order in
    which the servers are listed. *)
Theorem signature_ignores_order (servers1 servers2 : list Server) :
  servers1 ≡ₚ servers2 → signature_of servers1 = signature_of servers2.
Proof.
  intros Hperm. unfold signature_of.
  apply (Sorted_unique name_le); try apply sorted_Sorted.
  rewrite !sorted_perm. by apply Permutation_map.
Qed.

(** X2. The signature keeps one entry per server, in ascending order of the
    names; a server without a name counts as the empty name. *)
Theorem signature_sorted_names (servers : list Server) :
  Sorted name_le (signature_of servers)
  ∧ signature_of servers ≡ₚ map (λ s, default "" (server_name s)) servers
  ∧ length (signature_of servers) = length servers.
Proof.
  unfold signature_of. split; [apply sorted_Sorted|].
  split; [apply sorted_perm|].
  by rewrite (Permutation_length (sorted_perm _)), length_map.
Qed.

End Signature.

(** ** The coordination filter and the fallback parameters *)

Section FilterShape.

Lemma filter_filter_implied {A} (P Q : A → Prop)
    `{∀ x, Decision (P x), ∀ x, Decision (Q x)} (l : list A) :
  (∀ x, Q x → P x) → filter P (filter Q l) = filter Q l.
Proof.
  intros HQP. induction l as [|x l IH]; [done|].
  rewrite (filter_cons Q). destruct (decide (Q x)) as [Hq|Hq]; [|done].
  rewrite filter_cons, decide_True by auto. by rewrite IH.
Qed.

Lemma filter_filter_excluded {A} (P Q : A → Prop)
    `{∀ x, Decision (P x), ∀ x, Decision (Q x)} (l : list A) :
  (∀ x, Q x → ¬ P x) → filter P (filter Q l) = [].
Proof.
  intros HQP. induction l as [|x l IH]; [done|].
  rewrite (filter_cons Q). destruct (decide (Q x)) as [Hq|Hq]; [|done].
  rewrite filter_cons, decide_False by auto. done.
Qed.

Lemma preserved_is_coordination o e f (t : Tool) :
  is_preserved o e f t → is_coordination t.
Proof.
  unfold is_preserved, is_coordination, _should_preserve_coordination_tool.
  by destruct (_is_coordination_tool (get_name t)).
Qed.

Lemma filter_coordination_split (current original : list Tool) (e f : bool) :
  _filter_coordination_tools_for_context current original e f
  = filter (λ t, ¬ is_coordination t) current
    ++ filter (is_preserved original e f) current.
Proof.
  rewrite filter_coordination_unfold.
  destruct (filter is_coordination current) as [|c cs] eqn:Hc.
  - assert (Hnone : ∀ t, t ∈ current → ¬ is_coordination t).
    { intros t Hin Ht. by eapply filter_nil_not_elem_of in Ht. }
    clear Hc. induction current as [|x xs IH]; [done|].
    rewrite !filter_cons.
    rewrite decide_True by (apply Hnone; set_solver).
    rewrite decide_False
      by (intros Hp; apply preserved_is_coordination in Hp;
          revert Hp; apply Hnone; set_solver).
    simpl. f_equal. apply IH. intros t Hin. apply Hnone. set_solver.
  - f_equal. rewrite <- Hc.
    rewrite (list_filter_filter _ is_coordination).
    apply list_filter_iff. intros t. split; [tauto|].
    intros Hp. split; [done|]. by eapply preserved_is_coordination.
Qed.

(** X3. The filter puts the tools that are not coordination tools first, in
    their order, and after them the coordination tools that the policy
    preserves, in their order. *)
Theorem coordination_filter_shape (current original : list Tool) (e f : bool) :
  _filter_coordination_tools_for_context current original e f
  = filter (λ t, ¬ is_coordination t) current
    ++ filter (is_preserved original e f) current.
Proof. apply filter_coordination_split. Qed.

(** X4. Filtering a second time, with the same original tools and context,
    changes nothing. *)
Theorem coordination_filter_idempotent (current original : list Tool)
    (e f : bool) :
  _filter_coordination_tools_for_context
    (_filter_coordination_tools_for_context current original e f)
    original e f
  = _filter_coordination_tools_for_context current original e f.
Proof.
  rewrite !filter_coordination_split. rewrite !filter_app.
  rewrite (filter_filter_implied (λ t, ¬ is_coordination t)) by done.
  rewrite (filter_filter_excluded (λ t, ¬ is_coordination t))
    by (intros t Hp Hn; apply Hn; by eapply preserved_is_coordination).
  rewrite (filter_filter_excluded (is_preserved original e f))
    by (intros t Hn Hp; apply Hn; by eapply preserved_is_coordination).
  rewrite (filter_filter_implied (is_preserved original e f)) by done.
  by rewrite app_nil_r.
Qed.

End FilterShape.

Section FallbackFrame.
Context `{C : Collaborators}.

(** X5. A tool of the request that does not belong to this layer and is not
    a coordination tool is in the parameters of the fallback. *)
Theorem fallback_keeps_other_tools
    (api_params : ApiParams C) (provider_tools : list Tool)
    (is_multi_agent_context is_final_agent : bool)
    (original_tools : option (list Tool)) (existing_answers_available : bool)
    (h : Handler C) (t : Tool) :
  t ∈ tools_of api_params →
  ¬ layer_tool h t →
  ¬ is_coordination t →
  t ∈ tools_of (build_fallback_params api_params provider_tools
                  is_multi_agent_context is_final_agent original_tools
                  existing_answers_available h).
Proof.
  unfold tools_of, build_fallback_params. simpl.
  intros Hin Hlayer Hcoord.
  destruct (api_tools api_params) as [ts|]; [|by apply elem_of_nil in Hin].
  simpl in Hin.
  assert (Hstripped :
    t ∈ filter (λ t, Is_true (not_registered h t))
          (filter (λ t, Is_true (not_mcp_type t)) ts)).
  { rewrite !list_elem_of_filter. repeat split; [| |done].
    - unfold not_registered.
      destruct (tool_name t) as [n|] eqn:Hn; [|done].
      apply bool_decide_pack. apply eq_None_not_Some. intros Hsome.
      apply Hlayer. right. by exists n.
    - unfold not_mcp_type. apply bool_decide_pack. intros Hmcp.
      apply Hlayer. by left. }
  assert (Hkept :
    t ∈ default []
          (match is_multi_agent_context, original_tools with
           | true, Some (o :: os) =>
             Some (_filter_coordination_tools_for_context
                     (filter (λ t, Is_true (not_registered h t))
                        (filter (λ t, Is_true (not_mcp_type t)) ts))
                     (o :: os) existing_answers_available is_final_agent)
           | _, _ =>
             Some (filter (λ t, Is_true (not_registered h t))
                     (filter (λ t, Is_true (not_mcp_type t)) ts))
           end)).
  { destruct is_multi_agent_context; [|done].
    destruct original_tools as [[|o os]|]; try done.
    simpl. rewrite filter_coordination_split.
    apply elem_of_app. left. by apply list_elem_of_filter. }
  destruct provider_tools as [|p ps]; [done|].
  simpl. apply elem_of_app. by left.
Qed.

(** X6. Every provider tool is available to the fallback: the parameters
    hold a tool with its type and its name. *)
Theorem fallback_offers_provider_tools
    (api_params : ApiParams C) (provider_tools : list Tool)
    (is_multi_agent_context is_final_agent : bool)
    (original_tools : option (list Tool)) (existing_answers_available : bool)
    (h : Handler C) (p : Tool) :
  p ∈ provider_tools →
  ∃ t,
    t ∈ tools_of (build_fallback_params api_params provider_tools
                    is_multi_agent_context is_final_agent original_tools
                    existing_answers_available h)
    ∧ tool_key t = tool_key p.
Proof.
  unfold tools_of, build_fallback_params. simpl. intros Hin.
  destruct provider_tools as [|q qs]; [by apply elem_of_nil in Hin|].
  simpl.
  match goal with
  | |- context [list_to_set (map tool_key ?kept)] => set (tools := kept)
  end.
  destruct (decide (tool_key p ∈ (list_to_set (map tool_key tools)
                                    : gset (option string * option string))))
    as [Hdup|Hfresh].
  - apply elem_of_list_to_set, list_elem_of_fmap in Hdup as (t & Hkey & Ht).
    exists t. split; [|done]. apply elem_of_app. by left.
  - exists p. split; [|done]. apply elem_of_app. right.
    by apply list_elem_of_filter.
Qed.

End FallbackFrame.

(** ** Connection attempts *)

Section Attempts.
Context `{C : Collaborators}.

Lemma record_connected_none (servers : list Server) (client : Client)
    (h : Handler C) :
  record_connected servers None client h = h.
Proof. unfold record_connected. by destruct (_circuit_breakers_enabled h). Qed.

Lemma record_connected_frame (servers : list Server) (cb : option Breaker)
    (client : Client) (h : Handler C) :
  record_connected servers cb client h = h
  ∨ ∃ b, record_connected servers cb client h
         = set_mcp_tools_circuit_breaker (Some b) h.
Proof. unfold record_connected. repeat case_match; eauto. Qed.

Lemma connection_attempts_snoc (h h' : Handler C) (servers : list Server) :
  effects h' = effects h ++ [Connect servers] →
  connection_attempts h' = connection_attempts h ++ [servers].
Proof.
  intros He. unfold connection_attempts. by rewrite He, omap_app.
Qed.

(** What one attempt changes, and what it leaves alone. *)
Lemma attempt_frame (servers : list Server) (cb : option Breaker)
    (original : list Server) (h : Handler C) :
  let r := _attempt_mcp_setup servers cb original h in
  connection_attempts r.2 = connection_attempts h ++ [servers]
  ∧ mcp_servers r.2 = mcp_servers h
  ∧ _mcp_permanently_blocked r.2 = _mcp_permanently_blocked h
  ∧ _circuit_breakers_enabled r.2 = _circuit_breakers_enabled h
  ∧ _mcp_circuit_breaker_notified r.2 = _mcp_circuit_breaker_notified h
  ∧ _servers_signature r.2 = _servers_signature h
  ∧ (is_Some (_mcp_tools_circuit_breaker h) →
     is_Some (_mcp_tools_circuit_breaker r.2))
  ∧ (cb = None → _mcp_tools_circuit_breaker r.2 = _mcp_tools_circuit_breaker h)
  ∧ (r.1 = true →
     _mcp_state r.2 = READY ∧ is_Some (_mcp_client r.2)
     ∧ ∀ name, is_Some (functions h !! name) → is_Some (functions r.2 !! name))
  ∧ (r.1 = false →
     _mcp_state r.2 = _mcp_state h ∧ _mcp_client r.2 = _mcp_client h
     ∧ functions r.2 = functions h).
Proof.
  unfold _attempt_mcp_setup.
  destruct (setup_mcp_client servers cb) as [outcome after].
  destruct cb as [cb|].
  - destruct after as [cb'|];
      destruct outcome as [[client|]|e]; simpl;
      try destruct (_mcp_connection_failure_notified h); simpl;
      try (destruct (convert_tools_to_functions client) as [converted|e];
           simpl;
           [ match goal with
             | |- context [record_connected ?s ?c ?m ?x] =>
               destruct (record_connected_frame s c m x) as [-> | [b ->]]
             end;
             destruct (get_server_names client) as [[|n ns]|e]; simpl | ]);
      repeat split; try done; try (by apply connection_attempts_snoc);
      try (intros name Hname; apply lookup_union_is_Some; by right).
  - destruct outcome as [[client|]|e]; simpl;
      try destruct (_mcp_connection_failure_notified h); simpl;
      try (destruct (convert_tools_to_functions client) as [converted|e];
           simpl;
           [ rewrite record_connected_none;
             destruct (get_server_names client) as [[|n ns]|e]; simpl | ]);
      repeat split; try done; try (by apply connection_attempts_snoc);
      try (intros name Hname; apply lookup_union_is_Some; by right).
Qed.

(** X7. An attempt that succeeds leaves a READY session with a client and a
    registry that holds at least the names it held before; an attempt
    that fails leaves state, client and registry as they were.  Either
    way exactly one connection is attempted, to the servers given. *)
Theorem attempt_outcome (servers : list Server) (cb : option Breaker)
    (original : list Server) (h : Handler C) :
  let r := _attempt_mcp_setup servers cb original h in
  connection_attempts r.2 = connection_attempts h ++ [servers]
  ∧ (if r.1
     then _mcp_state r.2 = READY ∧ is_Some (_mcp_client r.2)
          ∧ dom (functions h) ⊆ dom (functions r.2)
     else _mcp_state r.2 = _mcp_state h ∧ _mcp_client r.2 = _mcp_client h
          ∧ functions r.2 = functions h).
Proof.
  intros r.
  destruct (attempt_frame servers cb original h)
    as (Hconn & _ & _ & _ & _ & _ & _ & _ & Hok & Hfail).
  split; [done|]. fold r in Hok, Hfail.
  destruct (r.1).
  - destruct Hok as (? & ? & Hgrow); [done|]. repeat split; try done.
    intros name. rewrite !elem_of_dom. apply Hgrow.
  - by apply Hfail.
Qed.

(** The loop: the connections it attempts, and the invariant it keeps. *)
Lemma setup_attempts_frame (remaining : nat) (attempt max_attempts : Z)
    (servers : list Server) (h : Handler C) :
  let h' := setup_attempts remaining attempt max_attempts servers h in
  (∃ added,
     connection_attempts h' = connection_attempts h ++ added
     ∧ (length added ≤ remaining)%nat
     ∧ Forall (λ ss, ss ≠ []
                     ∧ ∃ b, ss = apply_circuit_breaker_filtering servers b)
         added)
  ∧ (ready_has_client h → ready_has_client h').
Proof.
  revert attempt h.
  induction remaining as [|remaining IH]; intros attempt h; simpl.
  { split; [|done]. exists [].
    split; [by rewrite app_nil_r|]. split; [simpl; lia|done]. }
  destruct (_mcp_tools_circuit_breaker h) as [cb|] eqn:Hcb.
  2:{ split; [|done]. exists [].
      split; [by rewrite app_nil_r|]. split; [simpl; lia|done]. }
  destruct (apply_circuit_breaker_filtering servers cb) as [|s ss] eqn:Hfilter.
  { split.
    - exists []. rewrite app_nil_r.
      split; [|split; [simpl; lia|done]].
      by destruct (attempt >=? max_attempts)%Z,
        (_mcp_circuit_breaker_notified h).
    - unfold ready_has_client.
      by destruct (attempt >=? max_attempts)%Z,
        (_mcp_circuit_breaker_notified h). }
  pose proof (attempt_frame (s :: ss) (Some cb) servers h) as Hframe.
  destruct (_attempt_mcp_setup (s :: ss) (Some cb) servers h) as [ok h1].
  simpl in Hframe.
  destruct Hframe as (Hconn & _ & _ & _ & _ & _ & _ & _ & Hok & Hfail).
  assert (Hone : Forall (λ ss0, ss0 ≠ []
                   ∧ ∃ b, ss0 = apply_circuit_breaker_filtering servers b)
                   [s :: ss]).
  { constructor; [|done]. split; [done|]. by exists cb. }
  assert (Hinv : ready_has_client h → ready_has_client h1).
  { unfold ready_has_client. intros Hh Hready. destruct ok.
    - by apply Hok.
    - destruct Hfail as (Hs & Hc & _); [done|]. rewrite Hc. apply Hh.
      by rewrite <- Hs. }
  destruct ok.
  { split; [|done]. exists [s :: ss].
    split; [done|]. split; [simpl; lia|done]. }
  destruct (attempt >=? max_attempts)%Z.
  { split; [|done]. exists [s :: ss].
    split; [done|]. split; [simpl; lia|done]. }
  destruct (IH (attempt + 1)%Z h1) as [(added & Hadd & Hlen & Hall) Hinv'].
  split; [|by auto].
  exists ((s :: ss) :: added). rewrite Hadd, Hconn, <- app_assoc.
  split; [done|]. split; [simpl; lia|].
  constructor; [apply (Forall_inv Hone)|done].
Qed.

End Attempts.

(** ** Setup as a whole *)

Section SetupPaths.
Context `{C : Collaborators}.

Lemma setup_failed_result (e : Error) (h : Handler C) :
  let h' := setup_failed e h in
  _mcp_client h' = None ∧ functions h' = ∅ ∧ _mcp_state h' = NOT_INITIALIZED
  ∧ effects h' = effects h.
Proof.
  unfold setup_failed.
  destruct (_circuit_breakers_enabled h), (_mcp_tools_circuit_breaker h);
    try done.
  by destruct (record_failure _ _ _).
Qed.

Lemma after_signature_check_invariant (signature : list string) (h : Handler C) :
  ready_has_client h → ready_has_client (after_signature_check signature h).
Proof.
  unfold after_signature_check, ready_has_client.
  case_bool_decide; [|done]. simpl.
  destruct (_mcp_client h) eqn:Hc; [|done].
  unfold cleanup_mcp. simpl. by rewrite Hc.
Qed.

(** X8. Setup and cleanup keep the session well-formed: a session that is
    READY has a client. *)
Theorem setup_keeps_ready_has_client (h : Handler C) :
  ready_has_client h →
  ready_has_client (setup_mcp_tools h) ∧ ready_has_client (cleanup_mcp h).
Proof.
  intros Hinv. split.
  - unfold setup_mcp_tools.
    destruct (mcp_servers h); [done|].
    case_bool_decide; [done|].
    destruct (_mcp_permanently_blocked h); [done|].
    destruct (normalize_mcp_servers _) as [normalized|e].
    2:{ intros Hready.
        destruct (setup_failed_result e h) as (_ & _ & Hs & _). congruence. }
    destruct (_ && _); [done|].
    pose proof (after_signature_check_invariant (signature_of normalized) h Hinv)
      as Hinv1.
    set (h1 := after_signature_check (signature_of normalized) h) in *.
    destruct (separate_stdio_streamable_servers normalized) as [[|t ts]|e];
      [done| |].
    + destruct (_circuit_breakers_enabled h1),
        (_mcp_tools_circuit_breaker h1) as [cb|];
        try (by apply setup_attempts_frame).
      * pose proof (attempt_frame (t :: ts) None (t :: ts) h1) as Hf.
        destruct (_attempt_mcp_setup (t :: ts) None (t :: ts) h1) as [ok h2].
        simpl in *. destruct Hf as (_ & _ & _ & _ & _ & _ & _ & _ & Hok & Hfail).
        intros Hready. destruct ok; [by apply Hok|].
        destruct Hfail as (Hs & Hc & _); [done|]. rewrite Hc. apply Hinv1.
        by rewrite <- Hs.
      * pose proof (attempt_frame (t :: ts) None (t :: ts) h1) as Hf.
        destruct (_attempt_mcp_setup (t :: ts) None (t :: ts) h1) as [ok h2].
        simpl in *. destruct Hf as (_ & _ & _ & _ & _ & _ & _ & _ & Hok & Hfail).
        intros Hready. destruct ok; [by apply Hok|].
        destruct Hfail as (Hs & Hc & _); [done|]. rewrite Hc. apply Hinv1.
        by rewrite <- Hs.
      * pose proof (attempt_frame (t :: ts) None (t :: ts) h1) as Hf.
        destruct (_attempt_mcp_setup (t :: ts) None (t :: ts) h1) as [ok h2].
        simpl in *. destruct Hf as (_ & _ & _ & _ & _ & _ & _ & _ & Hok & Hfail).
        intros Hready. destruct ok; [by apply Hok|].
        destruct Hfail as (Hs & Hc & _); [done|]. rewrite Hc. apply Hinv1.
        by rewrite <- Hs.
    + intros Hready.
      destruct (setup_failed_result e h1) as (_ & _ & Hs & _). congruence.
  - unfold cleanup_mcp.
    destruct (_mcp_client h) eqn:Hc; [by intros ?|done].
Qed.

(** X9. With a breaker, one setup call attempts at most [max_failures]
    connections, each to a non-empty list of servers that the breaker's
    filtering returned. *)
Theorem setup_attempts_bounded (h : Handler C) (cb : Breaker) :
  _circuit_breakers_enabled h = true →
  _mcp_tools_circuit_breaker h = Some cb →
  ∃ added,
    connection_attempts (setup_mcp_tools h) = connection_attempts h ++ added
    ∧ (length added ≤ Z.to_nat (max_failures cb))%nat
    ∧ Forall (λ ss, ss ≠ []
                    ∧ ∃ servers b,
                        ss = apply_circuit_breaker_filtering servers b)
        added.
Proof.
  intros Henabled Hcb.
  assert (Hnone : ∀ h' : Handler C,
            connection_attempts h' = connection_attempts h →
            ∃ added,
              connection_attempts h' = connection_attempts h ++ added
              ∧ (length added ≤ Z.to_nat (max_failures cb))%nat
              ∧ Forall (λ ss, ss ≠ []
                          ∧ ∃ servers b,
                              ss = apply_circuit_breaker_filtering servers b)
                  added).
  { intros h' Hsame. exists []. rewrite app_nil_r.
    split; [done|]. split; [simpl; lia|done]. }
  unfold setup_mcp_tools.
  destruct (mcp_servers h); [by apply Hnone|].
  case_bool_decide; [by apply Hnone|].
  destruct (_mcp_permanently_blocked h); [by apply Hnone|].
  destruct (normalize_mcp_servers _) as [normalized|e].
  2:{ apply Hnone. unfold connection_attempts.
      by destruct (setup_failed_result e h) as (_ & _ & _ & ->). }
  destruct (_ && _); [by apply Hnone|].
  destruct (after_signature_check_frame (signature_of normalized) h)
    as (Hcb1 & Hen1 & _ & _ & _ & Hconn1 & _).
  set (h1 := after_signature_check (signature_of normalized) h) in *.
  destruct (separate_stdio_streamable_servers normalized) as [[|t ts]|e];
    [by apply Hnone| |].
  - rewrite Hen1, Henabled, Hcb1, Hcb.
    destruct (setup_attempts_frame (Z.to_nat (max_failures cb)) 1
                (max_failures cb) (t :: ts) h1)
      as [(added & Hadd & Hlen & Hall) _].
    exists added. rewrite Hadd, Hconn1. split; [done|]. split; [done|].
    eapply Forall_impl; [exact Hall|].
    intros ss [Hne [b Hb]]. split; [done|]. by exists (t :: ts), b.
  - apply Hnone. unfold connection_attempts.
    destruct (setup_failed_result e h1) as (_ & _ & _ & ->). exact Hconn1.
Qed.

(** X10. Without a breaker, setup attempts exactly one connection, to every
    supported server, and does not touch a breaker that is present but
    disabled. *)
Theorem setup_without_breaker_attempts_once (h : Handler C)
    (normalized_servers mcp_tools_servers : list Server) :
  mcp_servers h ≠ [] →
  _mcp_state h = NOT_INITIALIZED →
  _mcp_permanently_blocked h = false →
  _circuit_breakers_enabled h = false ∨ _mcp_tools_circuit_breaker h = None →
  normalize_mcp_servers (mcp_servers h) = Ok normalized_servers →
  separate_stdio_streamable_servers normalized_servers = Ok mcp_tools_servers →
  mcp_tools_servers ≠ [] →
  connection_attempts (setup_mcp_tools h)
  = connection_attempts h ++ [mcp_tools_servers]
  ∧ _mcp_tools_circuit_breaker (setup_mcp_tools h)
    = _mcp_tools_circuit_breaker h.
Proof.
  intros Hservers Hstate Hblocked Hoff Hnorm Hsep Hne.
  unfold setup_mcp_tools.
  destruct (mcp_servers h) as [|s ss] eqn:Hs; [done|].
  rewrite Hstate, Hblocked, Hnorm. simpl. rewrite andb_false_r.
  destruct (after_signature_check_frame (signature_of normalized_servers) h)
    as (Hcb1 & Hen1 & _ & _ & _ & Hconn1 & _).
  set (h1 := after_signature_check (signature_of normalized_servers) h) in *.
  rewrite Hsep. destruct mcp_tools_servers as [|t ts]; [done|].
  pose proof (attempt_frame (t :: ts) None (t :: ts) h1) as Hf.
  simpl in Hf. destruct Hf as (Hconn & _ & _ & _ & _ & _ & _ & Hsame & _).
  assert (Hattempt :
    connection_attempts (_attempt_mcp_setup (t :: ts) None (t :: ts) h1).2
    = connection_attempts h ++ [t :: ts]
    ∧ _mcp_tools_circuit_breaker
        (_attempt_mcp_setup (t :: ts) None (t :: ts) h1).2
      = _mcp_tools_circuit_breaker h).
  { split; [by rewrite Hconn, Hconn1 | by rewrite Hsame, Hcb1]. }
  destruct (_circuit_breakers_enabled h1) eqn:Hen; [|done].
  destruct (_mcp_tools_circuit_breaker h1) eqn:Hb; [|done].
  destruct Hoff as [Hoff|Hoff]; congruence.
Qed.

Lemma attempt_fails (servers : list Server) (cb : option Breaker)
    (original : list Server) (h : Handler C) :
  (∀ client, (setup_mcp_client servers cb).1 ≠ Ok (Some client)) →
  (_attempt_mcp_setup servers cb original h).1 = false.
Proof.
  intros Hno. unfold _attempt_mcp_setup.
  destruct (setup_mcp_client servers cb) as [[[client|]|e] after]; simpl in *;
    try done.
  by destruct (Hno client).
Qed.

(** The loop when no connection can be made and the breaker never
    rejects every server. *)
Lemma setup_attempts_exhausted (max_attempts : Z) (servers : list Server)
    (remaining : nat) (attempt : Z) (h : Handler C) :
  (∀ b, apply_circuit_breaker_filtering servers b ≠ []) →
  (∀ ss b client, (setup_mcp_client ss b).1 ≠ Ok (Some client)) →
  is_Some (_mcp_tools_circuit_breaker h) →
  (attempt = max_attempts - Z.of_nat remaining + 1)%Z →
  (1 ≤ remaining)%nat →
  let h' := setup_attempts remaining attempt max_attempts servers h in
  _mcp_permanently_blocked h' = true
  ∧ length (connection_attempts h')
    = (length (connection_attempts h) + remaining)%nat
  ∧ _mcp_state h' = _mcp_state h.
Proof.
  intros Hfilter Hconnect. revert attempt h.
  induction remaining as [|remaining IH]; intros attempt h [cb Hcb] Hattempt Hpos;
    [lia|].
  simpl. rewrite Hcb.
  destruct (apply_circuit_breaker_filtering servers cb) as [|s ss] eqn:Hf;
    [by destruct (Hfilter cb)|].
  pose proof (attempt_fails (s :: ss) (Some cb) servers h
                (Hconnect (s :: ss) (Some cb))) as Hfails.
  pose proof (attempt_frame (s :: ss) (Some cb) servers h) as Hframe.
  destruct (_attempt_mcp_setup (s :: ss) (Some cb) servers h) as [ok h1].
  simpl in *. subst ok.
  destruct Hframe as (Hconn & _ & _ & _ & _ & _ & Hsome & _ & _ & Hfail).
  destruct Hfail as (Hs & _ & _); [done|].
  destruct (attempt >=? max_attempts)%Z eqn:Hge.
  - simpl. split; [done|]. split; [|done].
    change (length (connection_attempts h1)
            = (length (connection_attempts h) + S remaining)%nat).
    rewrite Hconn, length_app. simpl. lia.
  - destruct (IH (attempt + 1)%Z h1) as (Hb & Hl & Hst);
      [by apply Hsome; eexists | lia | lia |].
    split; [done|]. split; [|congruence].
    rewrite Hl, Hconn, length_app. simpl. lia.
Qed.

(** X11. With a breaker that keeps offering servers and servers that never
    connect, one setup call attempts exactly [max_failures] connections
    and then marks the session permanently blocked; the session stays
    uninitialised and is not used. *)
Theorem setup_gives_up_after_failures (h : Handler C) (cb : Breaker)
    (normalized_servers mcp_tools_servers : list Server) :
  mcp_servers h ≠ [] →
  _mcp_state h = NOT_INITIALIZED →
  _mcp_permanently_blocked h = false →
  _circuit_breakers_enabled h = true →
  _mcp_tools_circuit_breaker h = Some cb →
  normalize_mcp_servers (mcp_servers h) = Ok normalized_servers →
  separate_stdio_streamable_servers normalized_servers = Ok mcp_tools_servers →
  mcp_tools_servers ≠ [] →
  (∀ b, apply_circuit_breaker_filtering mcp_tools_servers b ≠ []) →
  (∀ ss b client, (setup_mcp_client ss b).1 ≠ Ok (Some client)) →
  (1 ≤ max_failures cb)%Z →
  let h' := setup_mcp_tools h in
  _mcp_permanently_blocked h' = true
  ∧ length (connection_attempts h')
    = (length (connection_attempts h) + Z.to_nat (max_failures cb))%nat
  ∧ _mcp_state h' = NOT_INITIALIZED
  ∧ should_use_mcp h' = false
  ∧ setup_mcp_tools h' = h'.
Proof.
  intros Hservers Hstate Hblocked Henabled Hcb Hnorm Hsep Hne Hfilter Hconnect
    Hmax h'.
  assert (Hmain : _mcp_permanently_blocked h' = true
            ∧ length (connection_attempts h')
              = (length (connection_attempts h)
                 + Z.to_nat (max_failures cb))%nat
            ∧ _mcp_state h' = NOT_INITIALIZED).
  { subst h'. unfold setup_mcp_tools.
    destruct (mcp_servers h) as [|s ss] eqn:Hs; [done|].
    rewrite Hstate, Hblocked, Hnorm. simpl. rewrite andb_false_r.
    destruct (after_signature_check_frame (signature_of normalized_servers) h)
      as (Hcb1 & Hen1 & _ & _ & _ & Hconn1 & Hst1).
    set (h1 := after_signature_check (signature_of normalized_servers) h) in *.
    rewrite Hsep. destruct mcp_tools_servers as [|t ts]; [done|].
    rewrite Hen1, Henabled, Hcb1, Hcb.
    destruct (setup_attempts_exhausted (max_failures cb) (t :: ts)
                (Z.to_nat (max_failures cb)) 1 h1) as (Hb & Hl & Hst);
      [done | done | by rewrite Hcb1, Hcb | lia | lia |].
    split; [done|]. split; [by rewrite Hl, Hconn1|].
    rewrite Hst. by apply Hst1. }
  destruct Hmain as (Hb & Hl & Hst). repeat split; try done.
  - unfold should_use_mcp. rewrite Hst. by destruct (negb _).
  - by apply setup_blocked_noop.
Qed.

(** X12. When the normalisation or the separation of the servers raises,
    setup returns normally with the session uninitialised, without client
    and with an empty registry, and no connection was attempted.  When
    the normalisation raises, a client that existed is dropped without
    being disconnected. *)
Theorem setup_exception_leaves_no_tools (h : Handler C) (e : Error) :
  mcp_servers h ≠ [] →
  _mcp_state h = NOT_INITIALIZED →
  _mcp_permanently_blocked h = false →
  normalize_mcp_servers (mcp_servers h) = Raise e
  ∨ (∃ normalized_servers,
       normalize_mcp_servers (mcp_servers h) = Ok normalized_servers
       ∧ separate_stdio_streamable_servers normalized_servers = Raise e) →
  let h' := setup_mcp_tools h in
  _mcp_client h' = None
  ∧ functions h' = ∅
  ∧ _mcp_state h' = NOT_INITIALIZED
  ∧ should_use_mcp h' = false
  ∧ connection_attempts h' = connection_attempts h
  ∧ (normalize_mcp_servers (mcp_servers h) = Raise e → effects h' = effects h).
Proof.
  intros Hservers Hstate Hblocked Hraise h'.
  assert (Hpath :
    (normalize_mcp_servers (mcp_servers h) = Raise e ∧ h' = setup_failed e h)
    ∨ ∃ normalized,
        normalize_mcp_servers (mcp_servers h) = Ok normalized
        ∧ h' = setup_failed e
                 (after_signature_check (signature_of normalized) h)).
  { subst h'. unfold setup_mcp_tools.
    destruct (mcp_servers h) as [|s ss] eqn:Hs; [done|].
    rewrite Hstate, Hblocked. simpl.
    destruct Hraise as [Hnorm | (normalized & Hnorm & Hsep)]; rewrite Hnorm.
    - by left.
    - right. exists normalized. simpl. by rewrite andb_false_r, Hsep. }
  clearbody h'.
  destruct Hpath as [[Hnorm ->] | (normalized & Hnorm & ->)].
  - destruct (setup_failed_result e h) as (Hc & Hf & Hst & He).
    repeat split; try done;
      try (unfold should_use_mcp; by rewrite Hf);
      unfold connection_attempts; by rewrite He.
  - destruct (after_signature_check_frame (signature_of normalized) h)
      as (_ & _ & _ & _ & _ & Hconn1 & _).
    set (h1 := after_signature_check (signature_of normalized) h) in *.
    destruct (setup_failed_result e h1) as (Hc & Hf & Hst & He).
    repeat split; try done;
      try (unfold should_use_mcp; by rewrite Hf);
      try (intros Hnorm'; congruence);
      unfold connection_attempts in *; by rewrite He.
Qed.

End SetupPaths.

(** ** Queries *)

Section Queries.
Context `{C : Collaborators}.

(** X13. After a cleanup the session is not used, and a second cleanup
    changes nothing: the client is disconnected at most once. *)
Theorem cleanup_disables_mcp (h : Handler C) :
  ready_has_client h →
  should_use_mcp (cleanup_mcp h) = false
  ∧ cleanup_mcp (cleanup_mcp h) = cleanup_mcp h.
Proof.
  intros Hinv. unfold cleanup_mcp.
  destruct (_mcp_client h) as [client|] eqn:Hc.
  - split; [|done]. unfold should_use_mcp. simpl.
    by rewrite bool_decide_eq_false_2 by (intros Hne; by apply Hne).
  - rewrite Hc. split; [|done]. unfold should_use_mcp.
    destruct (negb _); [done|].
    rewrite bool_decide_eq_true_2; [done|].
    intros Hready. apply Hinv in Hready as [c Hsome]. congruence.
Qed.

(** X14. A session that is in use never shows the "no MCP" message, and
    setup leaves it alone. *)
Theorem mcp_in_use_is_quiet (h : Handler C) (notified : bool) :
  should_use_mcp h = true →
  _mcp_permanently_blocked h = false →
  should_show_no_mcp_message notified h = (false, notified)
  ∧ setup_mcp_tools h = h
  ∧ setup_context_manager h = h.
Proof.
  unfold should_use_mcp. intros Huse Hblocked.
  destruct (bool_decide (functions h ≠ ∅)) eqn:Hf; [|done].
  destruct (bool_decide (mcp_servers h ≠ [])) eqn:Hs; [|done].
  simpl in Huse.
  destruct (bool_decide (_mcp_state h ≠ READY)) eqn:Hr; [done|].
  apply bool_decide_eq_true in Hf, Hs. apply bool_decide_eq_false in Hr.
  assert (Hready : _mcp_state h = READY) by (by apply dec_stable).
  split; [|split].
  - unfold should_show_no_mcp_message. rewrite Hblocked.
    destruct (mcp_servers h); [done|].
    rewrite (bool_decide_eq_false_2 (functions h = ∅)) by done.
    by repeat case_match.
  - by apply setup_ready_noop.
  - unfold setup_context_manager. destruct (mcp_servers h); [done|].
    by apply setup_ready_noop.
Qed.

(** X15. For a permanently blocked session the "no MCP" message is shown once:
    whatever the first call answered, the next one answers [False]. *)
Theorem no_mcp_message_shown_once (h : Handler C) (notified : bool) :
  _mcp_permanently_blocked h = true →
  let first := should_show_no_mcp_message notified h in
  let second := should_show_no_mcp_message first.2 h in
  second = (false, first.2)
  ∧ (mcp_servers h ≠ [] → first = (negb notified, true)).
Proof.
  intros Hblocked. unfold should_show_no_mcp_message. rewrite Hblocked.
  destruct (mcp_servers h); [done|]. by destruct notified.
Qed.

End Queries.

(** ** Execution and the streaming engine *)

Section EngineMore.
Context `{C : Collaborators}.

Lemma foldl_run_callback_counts (actions : list ManagerAction) (h : Handler C) :
  _mcp_tool_calls_count (foldl run_callback h actions)
  = (_mcp_tool_calls_count h + count_stats "increment_calls" actions)%Z
  ∧ _mcp_tool_failures (foldl run_callback h actions)
    = (_mcp_tool_failures h + count_stats "increment_failures" actions)%Z.
Proof.
  revert h. induction actions as [|a actions IH]; intros h; simpl.
  { split; lia. }
  destruct (IH (run_callback h a)) as [-> ->].
  destruct a as [action|event error_msg]; simpl.
  - unfold stats_callback.
    destruct (decide (action = "increment_calls")) as [->|Hc].
    + simpl. split; lia.
    + rewrite (bool_decide_eq_false_2 (action = "increment_calls")) by done.
      destruct (decide (action = "increment_failures")) as [->|Hf].
      * simpl. split; lia.
      * rewrite (bool_decide_eq_false_2 (action = "increment_failures"))
          by done.
        split; lia.
  - unfold circuit_breaker_callback.
    destruct (_mcp_tools_circuit_breaker h); [|done].
    by case_bool_decide.
Qed.

(** X16. A call with well-formed arguments reaches the execution manager
    once; afterwards the call counter and the failure counter have grown
    by the number of times the manager asked for each through the
    statistics callback, and by nothing else. *)
Theorem execution_updates_counters (function_name arguments_json : string)
    (max_retries : Z) (h : Handler C) (args : JsonArgs) :
  json_loads arguments_json = Ok args →
  let run := execute_function_with_retry function_name args (functions h)
               max_retries in
  let h' := (execute_mcp_function_with_retry function_name arguments_json
               max_retries h).2 in
  _mcp_tool_calls_count h'
  = (_mcp_tool_calls_count h + count_stats "increment_calls" run.1)%Z
  ∧ _mcp_tool_failures h'
    = (_mcp_tool_failures h + count_stats "increment_failures" run.1)%Z
  ∧ invocations h' = invocations h ++ [(function_name, args)].
Proof.
  intros Hargs. unfold execute_mcp_function_with_retry. rewrite Hargs.
  change (functions (add_effect (Invoke function_name args) h))
    with (functions h).
  destruct (execute_function_with_retry function_name args (functions h)
              max_retries) as [actions result].
  pose proof (foldl_run_callback_counts actions
                (add_effect (Invoke function_name args) h)) as [Hc Hf].
  pose proof (foldl_run_callback_frame actions
                (add_effect (Invoke function_name args) h)) as [_ He].
  assert (Hinv : invocations (foldl run_callback
                                (add_effect (Invoke function_name args) h)
                                actions)
                 = invocations h ++ [(function_name, args)]).
  { unfold invocations. rewrite He. simpl. by rewrite omap_app. }
  by destruct result as [[error|repr text]|err].
Qed.

Lemma invocation_of_functions (h1 h2 : Handler C) (call : Call) :
  functions h1 = functions h2 → invocation_of h1 call = invocation_of h2 call.
Proof. unfold invocation_of, in_registry. by intros ->. Qed.

Lemma foldl_execute_call_invocations (cbs : Callbacks C) (calls : list Call)
    (s : BatchState C) (h0 : Handler C) :
  functions (batch_handler s) = functions h0 →
  invocations (batch_handler (foldl (execute_call cbs) s calls))
  = invocations (batch_handler s) ++ omap (invocation_of h0) calls.
Proof.
  revert s. induction calls as [|c calls IH]; intros s Hf; simpl.
  { by rewrite app_nil_r. }
  destruct (execute_call_frame cbs s c) as [Hf1 He1].
  rewrite IH by congruence.
  unfold invocations at 1. rewrite He1, omap_app.
  fold (invocations (batch_handler s)). rewrite <- app_assoc. f_equal.
  rewrite <- (invocation_of_functions (batch_handler s) h0 c Hf).
  unfold invocation_of.
  destruct (in_registry (batch_handler s) c); [|done].
  by destruct (json_loads (call_arguments c)).
Qed.

(** X17. The batch hands to the execution manager exactly the captured calls
    that are registered and well-formed, each once, in the order in which
    they were captured. *)
Theorem batch_invokes_each_call_once (cbs : Callbacks C) (calls : list Call)
    (messages : list Message) (h : Handler C) :
  invocations (batch_handler (execute_batch cbs calls messages h))
  = invocations h ++ omap (invocation_of h) calls.
Proof. unfold execute_batch. by apply foldl_execute_call_invocations. Qed.

Lemma execute_call_history (cbs : Callbacks C) (s : BatchState C) (call : Call) :
  let s' := execute_call cbs s call in
  (batch_messages s' = batch_messages s ∧ batch_executed s' = batch_executed s)
  ∨ (∃ output,
       batch_messages s'
       = batch_messages s
         ++ [Msg_function_call (default "" (call_id call)) (call_name call)
               (call_arguments call); output]
       ∧ batch_executed s' = true).
Proof.
  simpl. unfold execute_call.
  destruct (in_registry (batch_handler s) call); [|by left].
  destruct (execute_mcp_function_with_retry _ _ _ _) as [[[result obj]|err] h'];
    [|by left].
  destruct (Py.startswith result "Error:"); [by left|].
  right. eexists. simpl. split; reflexivity.
Qed.

(** X18. The batch only appends to the history: for each call that was
    executed, its call record followed by its result message.  When no
    call was executed the history is the one it started from and the flag
    that triggers the trimming stays down. *)
Theorem batch_extends_history (cbs : Callbacks C) (calls : list Call)
    (messages : list Message) (h : Handler C) :
  let s := execute_batch cbs calls messages h in
  ∃ added,
    batch_messages s = messages ++ added
    ∧ (batch_executed s = false → added = [])
    ∧ (batch_executed s = true → added ≠ [])
    ∧ (length added ≤ 2 * length calls)%nat.
Proof.
  unfold execute_batch.
  set (s0 := {| batch_chunks := []; batch_messages := messages;
                batch_executed := false; batch_handler := h |}).
  assert (Hgen : ∀ (cs : list Call) (s : BatchState C) (before : list Message),
    batch_messages s = messages ++ before →
    (batch_executed s = false → before = []) →
    (batch_executed s = true → before ≠ []) →
    ∃ added,
      batch_messages (foldl (execute_call cbs) s cs) = messages ++ added
      ∧ (batch_executed (foldl (execute_call cbs) s cs) = false → added = [])
      ∧ (batch_executed (foldl (execute_call cbs) s cs) = true → added ≠ [])
      ∧ (length added ≤ length before + 2 * length cs)%nat).
  { induction cs as [|c cs IH]; intros s before Hm Hfalse Htrue; simpl.
    - exists before. repeat split; try done. lia.
    - destruct (execute_call_history cbs s c)
        as [[Hsame Hflag] | (output & Happ & Hflag)].
      + destruct (IH (execute_call cbs s c) before) as (added & ? & ? & ? & Hlen);
          [congruence | by rewrite Hflag | by rewrite Hflag |].
        exists added. repeat split; try done. lia.
      + destruct (IH (execute_call cbs s c)
                    (before ++ [Msg_function_call (default "" (call_id c))
                                  (call_name c) (call_arguments c); output]))
          as (added & ? & ? & ? & Hlen).
        * by rewrite Happ, Hm, <- app_assoc.
        * by rewrite Hflag.
        * intros _ Hnil. by apply app_eq_nil in Hnil as [_ ?].
        * exists added. repeat split; try done.
          rewrite length_app in Hlen. simpl in Hlen. lia. }
  destruct (Hgen calls s0 []) as (added & ? & ? & ? & Hlen);
    [by rewrite app_nil_r | done | done |].
  exists added. repeat split; try done; simpl in Hlen; lia.
Qed.

End EngineMore.

Section EngineTurns.
Context `{C : Collaborators}.

Lemma all_registered_no_unknown (h : Handler C) (calls : list Call) :
  Forall (λ call, Is_true (in_registry h call)) calls →
  filter (λ call, ¬ Is_true (in_registry h call)) calls = [].
Proof.
  intros Hall. induction Hall as [|c cs Hc _ IH]; [done|].
  by rewrite filter_cons, decide_False by (intros Hn; by apply Hn).
Qed.

(** X19. When the breaker rejects every server that the last setup used, a
    batch of registered calls is not executed: the engine yields the
    [mcp_blocked] chunk the first time and only [done] from then on, and
    the handler changes in the notification flag alone. *)
Theorem engine_blocked_by_breaker (fuel : nat)
    (current_messages : list Message) (tools : list Tool)
    (captured : list Call) (cbs : Callbacks C) (kwargs : Kwargs)
    (h : Handler C) (cb : Breaker) :
  captured ≠ [] →
  Forall (λ call, Is_true (in_registry h call)) captured →
  _circuit_breakers_enabled h = true →
  _mcp_tools_circuit_breaker h = Some cb →
  apply_circuit_breaker_filtering (_last_mcp_servers_used h) cb = [] →
  execute_mcp_functions_and_recurse (S fuel) current_messages tools captured
    cbs kwargs h
  = Some (if _mcp_circuit_breaker_notified h
          then ([done_chunk], h)
          else ([blocked_chunk; done_chunk],
                set_mcp_circuit_breaker_notified true h)).
Proof.
  intros Hne Hall Henabled Hcb Hfilter.
  simpl. unfold engine_turn, execute_captured.
  destruct captured as [|c cs]; [done|].
  rewrite (all_registered_no_unknown h (c :: cs) Hall).
  rewrite Henabled, Hcb, Hfilter.
  by destruct (_mcp_circuit_breaker_notified h).
Qed.

(** The result of the engine does not depend on the bound on the
    activations, once the bound is large enough. *)
Theorem engine_fuel_monotone (fuel extra : nat)
    (current_messages : list Message) (tools : list Tool)
    (captured : list Call) (cbs : Callbacks C) (kwargs : Kwargs)
    (h : Handler C) (result : list StreamChunk * Handler C) :
  execute_mcp_functions_and_recurse fuel current_messages tools captured cbs
    kwargs h = Some result →
  execute_mcp_functions_and_recurse (fuel + extra) current_messages tools
    captured cbs kwargs h = Some result.
Proof.
  revert current_messages captured cbs h result.
  induction fuel as [|fuel IH];
    intros current_messages captured cbs h result; [done|].
  cbn [execute_mcp_functions_and_recurse Nat.add].
  destruct (engine_turn current_messages tools captured cbs kwargs h)
    as [[chunks h'] [|updated next]]; [done|].
  destruct (execute_mcp_functions_and_recurse fuel updated tools next
              (without_fallback cbs) kwargs h') as [[rest h'']|] eqn:Hrec;
    [|done].
  by rewrite (IH _ _ _ _ _ Hrec).
Qed.

Lemma unknown_call_turn (current_messages : list Message) (tools : list Tool)
    (captured : list Call) (cbs : Callbacks C) (kwargs : Kwargs)
    (h : Handler C) :
  has_unknown_call h captured →
  fallback_stream_callback cbs = None →
  engine_turn current_messages tools captured cbs kwargs h
  = ([done_chunk], h, Finished).
Proof.
  intros (call & Hin & Hunknown) Hnone.
  apply unknown_call_not_registered in Hunknown.
  unfold engine_turn, execute_captured.
  destruct captured as [|c cs]; [by apply elem_of_nil in Hin|].
  destruct (filter _ (c :: cs)) as [|u us] eqn:Hfilter.
  - exfalso.
    eapply filter_nil_not_elem_of; [exact Hfilter | exact Hunknown | exact Hin].
  - by rewrite Hnone.
Qed.

(** X20. The recursive call does not pass the fallback callback on.  When the
    calls captured from the stream include a name that is not registered,
    the next activation ends the stream with [done]; the fallback callback
    that the caller gave is not used, and none of the captured calls is
    executed. *)
Theorem recursion_drops_fallback (fuel : nat)
    (current_messages : list Message) (tools : list Tool)
    (captured : list Call) (cbs : Callbacks C) (kwargs : Kwargs)
    (h h' : Handler C) (chunks : list StreamChunk)
    (updated_messages : list Message) (next : list Call) :
  engine_turn current_messages tools captured cbs kwargs h
  = (chunks, h', Recurse updated_messages next) →
  has_unknown_call h' next →
  execute_mcp_functions_and_recurse (S (S fuel)) current_messages tools
    captured cbs kwargs h
  = Some (chunks ++ [done_chunk], h').
Proof.
  intros Hturn Hunknown.
  cbn [execute_mcp_functions_and_recurse]. rewrite Hturn.
  by rewrite (unknown_call_turn updated_messages tools next
                (without_fallback cbs) kwargs h' Hunknown).
Qed.

End EngineTurns.

(** ** Scanning the backend stream *)

Section Scan.
Context `{C : Collaborators}.
Variable detect : RawChunk → option Call → list Call →
                  exc (option Call * list Call * bool).
Variable process : RawChunk → option StreamChunk.

(** X21. The scan ends at the first chunk that signals completion: what the
    backend sends after it is neither examined for calls nor forwarded. *)
Theorem scan_stops_at_completion (before : list RawChunk) (chunk : RawChunk)
    (after : list RawChunk) (current : option Call) (captured : list Call) :
  never_completes before →
  raw_chunk_type chunk = Some "response.completed" →
  scan_stream detect process (before ++ chunk :: after) current captured
  = scan_stream detect process (before ++ [chunk]) current captured
  ∧ (scan_stream detect process (before ++ chunk :: after) current captured).2
    = true.
Proof.
  intros Hbefore Hchunk. revert current captured.
  induction Hbefore as [|x before Hx _ IH]; intros current captured; simpl.
  - destruct (detect chunk current captured) as [[[cur cap] consumed]|e];
      by rewrite bool_decide_eq_true_2.
  - destruct (detect x current captured) as [[[cur cap] consumed]|e];
      rewrite bool_decide_eq_false_2 by done.
    + destruct (IH cur cap) as [-> Htrue].
      destruct (scan_stream detect process (before ++ [chunk]) cur cap)
        as [[chunks calls] completed] eqn:Hscan.
      split; [done|].
      destruct (IH cur cap) as [Heq Hdone]. rewrite Heq, Hscan in Hdone.
      done.
    + destruct (IH current captured) as [-> Htrue].
      destruct (scan_stream detect process (before ++ [chunk]) current captured)
        as [[chunks calls] completed] eqn:Hscan.
      split; [done|].
      destruct (IH current captured) as [Heq Hdone].
      rewrite Heq, Hscan in Hdone. done.
Qed.

(** X22. The scan reports completion exactly when the stream holds a chunk
    that signals it; a stream that ends without one is reported as not
    completed. *)
Theorem scan_completion_reported (stream : list RawChunk)
    (current : option Call) (captured : list Call) :
  (scan_stream detect process stream current captured).2 = false
  ↔ never_completes stream.
Proof.
  revert current captured.
  induction stream as [|x stream IH]; intros current captured; simpl.
  - split; [constructor|done].
  - unfold never_completes. rewrite Forall_cons.
    destruct (detect x current captured) as [[[cur cap] consumed]|e];
      case_bool_decide as Hx; simpl.
    + split; [done|]. by intros [? _].
    + specialize (IH cur cap).
      destruct (scan_stream detect process stream cur cap) as [[? ?] ?].
      simpl in *. rewrite IH. unfold never_completes. tauto.
    + split; [done|]. by intros [? _].
    + specialize (IH current captured).
      destruct (scan_stream detect process stream current captured)
        as [[? ?] ?].
      simpl in *. rewrite IH. unfold never_completes. tauto.
Qed.

(** The chunks that the scan yields are chunks that the processing
    callback made from the stream, in the order of the stream. *)
Lemma scan_yields_sublist (stream : list RawChunk)
    (current : option Call) (captured : list Call) :
  (scan_stream detect process stream current captured).1.1
    `sublist_of` omap process stream.
Proof.
  revert current captured.
  induction stream as [|x stream IH]; intros current captured; simpl.
  - done.
  - destruct (detect x current captured) as [[[cur cap] consumed]|e].
    + specialize (IH cur cap).
      destruct (scan_stream detect process stream cur cap)
        as [[chunks calls] completed].
      simpl in IH.
      destruct consumed, (process x) as [p|], (bool_decide _); simpl;
        try apply sublist_nil_l; try done;
        try (by apply sublist_cons); try (by apply sublist_skip);
        by apply sublist_skip, sublist_nil_l.
    + specialize (IH current captured).
      destruct (scan_stream detect process stream current captured)
        as [[chunks calls] completed].
      simpl in IH.
      destruct (process x) as [p|], (bool_decide _); simpl;
        try apply sublist_nil_l; try done;
        try (by apply sublist_cons); try (by apply sublist_skip);
        by apply sublist_skip, sublist_nil_l.
Qed.

(** X23. When the verdict of the detection on a chunk does not depend on
    the calls accumulated so far, the scan yields exactly what the
    processing callback makes of the chunks that the detection did not
    consume, in the order of the stream and up to the chunk that signals
    completion: a consumed chunk is never forwarded, a chunk for which
    the processing callback returns nothing adds nothing, and a chunk on
    which the detection raises counts as not consumed. *)
Theorem scan_forwards_processed_chunks (consumes : RawChunk → bool)
    (stream : list RawChunk) (current : option Call) (captured : list Call) :
  (∀ chunk cur cap,
     chunk ∈ stream →
     detection_consumes (detect chunk cur cap) = consumes chunk) →
  (scan_stream detect process stream current captured).1.1
  = omap process (filter (λ chunk, consumes chunk = false) (examined stream)).
Proof.
  revert current captured.
  induction stream as [|x stream IH]; intros current captured Hverdict;
    [done|].
  assert (Hx : detection_consumes (detect x current captured) = consumes x)
    by (apply Hverdict; set_solver).
  assert (Hrest : ∀ chunk cur cap,
            chunk ∈ stream →
            detection_consumes (detect chunk cur cap) = consumes chunk)
    by (intros chunk cur cap Hin; apply Hverdict; set_solver).
  simpl. unfold detection_consumes in Hx.
  destruct (detect x current captured) as [[[cur cap] consumed]|e].
  - subst consumed. specialize (IH cur cap Hrest).
    destruct (scan_stream detect process stream cur cap)
      as [[chunks calls] completed].
    simpl in IH. subst chunks.
    destruct (bool_decide (raw_chunk_type x = Some "response.completed"));
      rewrite filter_cons; destruct (consumes x); simpl;
      rewrite ?filter_nil; simpl; by destruct (process x).
  - specialize (IH current captured Hrest).
    destruct (scan_stream detect process stream current captured)
      as [[chunks calls] completed].
    simpl in IH. subst chunks.
    destruct (bool_decide (raw_chunk_type x = Some "response.completed"));
      rewrite filter_cons; rewrite <- Hx; simpl;
      rewrite ?filter_nil; simpl; by destruct (process x).
Qed.

End Scan.

(** ** The further properties on concrete sessions *)

Section ConcreteMore.

Lemma signature_ignores_order_witness :
  [Sample.server "beta"; Sample.server "alpha"]
    ≡ₚ [Sample.server "alpha"; Sample.server "beta"]
  ∧ signature_of [Sample.server "beta"; Sample.server "alpha"]
    = signature_of [Sample.server "alpha"; Sample.server "beta"].
Proof.
  assert (H : [Sample.server "beta"; Sample.server "alpha"]
                ≡ₚ [Sample.server "alpha"; Sample.server "beta"])
    by apply Permutation_swap.
  split; [exact H|]. exact (signature_ignores_order _ _ H).
Defined.

Lemma fallback_keeps_other_tools_witness :
  Sample.tool "function" "plain" ∈ tools_of Sample.request
  ∧ ¬ layer_tool Sample.ready (Sample.tool "function" "plain")
  ∧ ¬ is_coordination (Sample.tool "function" "plain")
  ∧ Sample.tool "function" "plain"
      ∈ tools_of (build_fallback_params Sample.request Sample.provider_tools
                    true false (Some Sample.coordination_tools) true
                    Sample.ready).
Proof.
  assert (H1 : Sample.tool "function" "plain" ∈ tools_of Sample.request)
    by compute_done.
  assert (H2 : ¬ layer_tool Sample.ready (Sample.tool "function" "plain")).
  { intros [Hmcp|(n & Hn & Hreg)]; [discriminate Hmcp|].
    injection Hn as <-. revert Hreg. compute_done. }
  assert (H3 : ¬ is_coordination (Sample.tool "function" "plain"))
    by compute_done.
  split; [exact H1|]. split; [exact H2|]. split; [exact H3|].
  exact (fallback_keeps_other_tools Sample.request Sample.provider_tools
           true false (Some Sample.coordination_tools) true Sample.ready
           _ H1 H2 H3).
Defined.

Lemma fallback_offers_provider_tools_witness :
  Sample.tool "web_search" "search" ∈ Sample.provider_tools
  ∧ ∃ t,
      t ∈ tools_of (build_fallback_params Sample.request Sample.provider_tools
                      false false None false Sample.ready)
      ∧ tool_key t = tool_key (Sample.tool "web_search" "search").
Proof.
  assert (H : Sample.tool "web_search" "search" ∈ Sample.provider_tools)
    by compute_done.
  split; [exact H|].
  exact (fallback_offers_provider_tools Sample.request Sample.provider_tools
           false false None false Sample.ready _ H).
Defined.

Lemma setup_keeps_ready_has_client_witness :
  ready_has_client (Sample.fresh [])
  ∧ ready_has_client (setup_mcp_tools (Sample.fresh []))
  ∧ _mcp_state (setup_mcp_tools (Sample.fresh [])) = READY.
Proof.
  assert (H : ready_has_client (Sample.fresh [])) by (intros Hr; discriminate Hr).
  split; [exact H|].
  split; [exact (proj1 (setup_keeps_ready_has_client _ H)) | reflexivity].
Defined.

Lemma setup_attempts_bounded_witness :
  _circuit_breakers_enabled Sample.offline_session = true
  ∧ _mcp_tools_circuit_breaker Sample.offline_session
    = Some (Sample.Build_breaker [] 3)
  ∧ ∃ added,
      connection_attempts (setup_mcp_tools Sample.offline_session)
      = connection_attempts Sample.offline_session ++ added
      ∧ (length added ≤ 3)%nat
      ∧ Forall (λ ss, ss ≠ []
                  ∧ ∃ servers b,
                      ss = @apply_circuit_breaker_filtering Sample.offline
                             servers b)
          added.
Proof.
  split; [reflexivity|]. split; [reflexivity|].
  exact (setup_attempts_bounded Sample.offline_session
           (Sample.Build_breaker [] 3) eq_refl eq_refl).
Defined.

Lemma setup_without_breaker_attempts_once_witness :
  _circuit_breakers_enabled Sample.unguarded_session = false
  ∧ connection_attempts (setup_mcp_tools Sample.unguarded_session)
    = [mcp_servers Sample.unguarded_session]
  ∧ _mcp_tools_circuit_breaker (setup_mcp_tools Sample.unguarded_session)
    = _mcp_tools_circuit_breaker Sample.unguarded_session.
Proof.
  split; [reflexivity|].
  apply (setup_without_breaker_attempts_once Sample.unguarded_session
           (mcp_servers Sample.unguarded_session)
           (mcp_servers Sample.unguarded_session));
    try reflexivity; try discriminate.
  by left.
Defined.

Lemma setup_gives_up_after_failures_witness :
  (∀ b, @apply_circuit_breaker_filtering Sample.offline
          (mcp_servers Sample.offline_session) b ≠ [])
  ∧ (∀ ss b client,
       (@setup_mcp_client Sample.offline ss b).1 ≠ Ok (Some client))
  ∧ _mcp_permanently_blocked (setup_mcp_tools Sample.offline_session) = true
  ∧ length (connection_attempts (setup_mcp_tools Sample.offline_session)) = 3%nat.
Proof.
  assert (H1 : ∀ b, @apply_circuit_breaker_filtering Sample.offline
                      (mcp_servers Sample.offline_session) b ≠ [])
    by (intros b; discriminate).
  assert (H2 : ∀ ss b client,
                 (@setup_mcp_client Sample.offline ss b).1 ≠ Ok (Some client))
    by (intros ss b client; discriminate).
  split; [exact H1|]. split; [exact H2|].
  destruct (setup_gives_up_after_failures Sample.offline_session
              (Sample.Build_breaker [] 3)
              (mcp_servers Sample.offline_session)
              (mcp_servers Sample.offline_session))
    as (Hb & Hl & _); try reflexivity; try discriminate; try done.
Defined.

Lemma setup_exception_leaves_no_tools_witness :
  @normalize_mcp_servers Sample.misconfigured
    (mcp_servers Sample.misconfigured_session) = Raise Sample.config_error
  ∧ is_Some (_mcp_client Sample.misconfigured_session)
  ∧ _mcp_client (setup_mcp_tools Sample.misconfigured_session) = None
  ∧ functions (setup_mcp_tools Sample.misconfigured_session) = ∅
  ∧ effects (setup_mcp_tools Sample.misconfigured_session) = [].
Proof.
  split; [reflexivity|]. split; [by eexists|].
  destruct (setup_exception_leaves_no_tools Sample.misconfigured_session
              Sample.config_error)
    as (Hc & Hf & _ & _ & _ & He);
    try reflexivity; try discriminate; [by left|].
  split; [exact Hc|]. split; [exact Hf|]. by apply He.
Defined.

Lemma cleanup_disables_mcp_witness :
  ready_has_client Sample.ready
  ∧ should_use_mcp Sample.ready = true
  ∧ should_use_mcp (cleanup_mcp Sample.ready) = false.
Proof.
  assert (H : ready_has_client Sample.ready) by (intros _; by eexists).
  split; [exact H|]. split; [reflexivity|].
  exact (proj1 (cleanup_disables_mcp Sample.ready H)).
Defined.

Lemma mcp_in_use_is_quiet_witness :
  should_use_mcp Sample.ready = true
  ∧ _mcp_permanently_blocked Sample.ready = false
  ∧ should_show_no_mcp_message false Sample.ready = (false, false).
Proof.
  split; [reflexivity|]. split; [reflexivity|].
  exact (proj1 (mcp_in_use_is_quiet Sample.ready false eq_refl eq_refl)).
Defined.

Lemma no_mcp_message_shown_once_witness :
  _mcp_permanently_blocked Sample.given_up = true
  ∧ should_show_no_mcp_message false Sample.given_up = (true, true)
  ∧ should_show_no_mcp_message true Sample.given_up = (false, true).
Proof.
  split; [reflexivity|].
  destruct (no_mcp_message_shown_once Sample.given_up false eq_refl)
    as [Hsecond Hfirst].
  split; [apply Hfirst; discriminate|].
  rewrite Hfirst in Hsecond by discriminate. exact Hsecond.
Defined.

Lemma execution_updates_counters_witness :
  @json_loads Sample.flaky (call_arguments Sample.lookup_call)
    = Ok (call_arguments Sample.lookup_call)
  ∧ _mcp_tool_calls_count
      (execute_mcp_function_with_retry "lookup"
         (call_arguments Sample.lookup_call) 3 Sample.flaky_ready).2 = 2%Z
  ∧ _mcp_tool_failures
      (execute_mcp_function_with_retry "lookup"
         (call_arguments Sample.lookup_call) 3 Sample.flaky_ready).2 = 1%Z.
Proof.
  assert (H : @json_loads Sample.flaky (call_arguments Sample.lookup_call)
              = Ok (call_arguments Sample.lookup_call)) by reflexivity.
  split; [exact H|].
  destruct (execution_updates_counters "lookup"
              (call_arguments Sample.lookup_call) 3 Sample.flaky_ready _ H)
    as (Hc & Hf & _).
  split; [exact Hc | exact Hf].
Defined.

Lemma engine_blocked_by_breaker_witness :
  Forall (λ call, Is_true (in_registry Sample.ready call)) [Sample.lookup_call]
  ∧ apply_circuit_breaker_filtering
      (_last_mcp_servers_used
         (set_mcp_tools_circuit_breaker (Some Sample.tripped) Sample.ready))
      Sample.tripped = []
  ∧ execute_mcp_functions_and_recurse 1 [] [] [Sample.lookup_call]
      (Sample.callbacks None) ()
      (set_mcp_tools_circuit_breaker (Some Sample.tripped) Sample.ready)
    = Some ([blocked_chunk; done_chunk],
            set_mcp_circuit_breaker_notified true
              (set_mcp_tools_circuit_breaker (Some Sample.tripped)
                 Sample.ready)).
Proof.
  assert (H1 : Forall (λ call, Is_true (in_registry Sample.ready call))
                 [Sample.lookup_call]) by (repeat constructor).
  split; [exact H1|]. split; [reflexivity|].
  exact (engine_blocked_by_breaker 0 [] [] [Sample.lookup_call]
           (Sample.callbacks None) ()
           (set_mcp_tools_circuit_breaker (Some Sample.tripped) Sample.ready)
           Sample.tripped ltac:(discriminate) H1 eq_refl eq_refl eq_refl).
Defined.

Lemma engine_fuel_monotone_witness :
  (∃ result,
     execute_mcp_functions_and_recurse 2 [] [] [] (Sample.callbacks None) ()
       Sample.ready = Some result
     ∧ execute_mcp_functions_and_recurse (2 + 5) [] [] []
         (Sample.callbacks None) () Sample.ready = Some result).
Proof.
  destruct (execute_mcp_functions_and_recurse 2 [] [] []
              (Sample.callbacks None) () Sample.ready) as [result|] eqn:Hrun.
  - exists result. split; [reflexivity|].
    exact (engine_fuel_monotone 2 5 [] [] [] (Sample.callbacks None) ()
             Sample.ready result Hrun).
  - vm_compute in Hrun. discriminate Hrun.
Defined.

Lemma recursion_drops_fallback_witness :
  engine_turn [] [] []
    (Sample.callbacks_asking Sample.unknown_call (Some Sample.plain_fallback))
    () Sample.ready
  = ([Sample.text_chunk "call.added"], Sample.ready,
     Recurse [] [Sample.unknown_call])
  ∧ has_unknown_call Sample.ready [Sample.unknown_call]
  ∧ execute_mcp_functions_and_recurse 2 [] [] []
      (Sample.callbacks_asking Sample.unknown_call
         (Some Sample.plain_fallback))
      () Sample.ready
    = Some ([Sample.text_chunk "call.added"] ++ [done_chunk], Sample.ready).
Proof.
  assert (H1 : engine_turn [] [] []
                 (Sample.callbacks_asking Sample.unknown_call
                    (Some Sample.plain_fallback))
                 () Sample.ready
               = ([Sample.text_chunk "call.added"], Sample.ready,
                  Recurse [] [Sample.unknown_call])) by reflexivity.
  assert (H2 : has_unknown_call Sample.ready [Sample.unknown_call]).
  { exists Sample.unknown_call. split; [compute_done | reflexivity]. }
  split; [exact H1|]. split; [exact H2|].
  exact (@recursion_drops_fallback Sample.collaborators 0 [] [] []
           (Sample.callbacks_asking Sample.unknown_call
              (Some Sample.plain_fallback))
           () Sample.ready Sample.ready [Sample.text_chunk "call.added"] []
           [Sample.unknown_call] H1 H2).
Defined.

Lemma scan_stops_at_completion_witness :
  @never_completes Sample.collaborators ["text"]
  ∧ @scan_stream Sample.collaborators Sample.detect Sample.process
      (["text"] ++ "response.completed" :: ["late"]) None []
    = @scan_stream Sample.collaborators Sample.detect Sample.process
        (["text"] ++ ["response.completed"]) None []
  ∧ (@scan_stream Sample.collaborators Sample.detect Sample.process
       (["text"] ++ "response.completed" :: ["late"]) None []).2 = true.
Proof.
  assert (H : @never_completes Sample.collaborators ["text"]).
  { constructor; [discriminate|constructor]. }
  split; [exact H|].
  exact (@scan_stops_at_completion Sample.collaborators Sample.detect
           Sample.process ["text"] "response.completed" ["late"] None []
           H eq_refl).
Defined.

Lemma scan_forwards_processed_chunks_witness :
  (∀ chunk cur cap,
     chunk ∈ ["call.added"; "text"; "call.done"; "response.completed"; "late"] →
     detection_consumes (Sample.detect chunk cur cap) = Sample.consumes chunk)
  ∧ (@scan_stream Sample.collaborators Sample.detect Sample.process
       ["call.added"; "text"; "call.done"; "response.completed"; "late"]
       None []).1.1
    = [Sample.text_chunk "text"].
Proof.
  assert (H : ∀ chunk cur cap,
            chunk ∈ ["call.added"; "text"; "call.done"; "response.completed";
                     "late"] →
            detection_consumes (Sample.detect chunk cur cap)
            = Sample.consumes chunk).
  { intros chunk cur cap _. unfold Sample.detect, Sample.consumes.
    destruct (bool_decide (chunk = "call.added")); [reflexivity|].
    destruct (bool_decide (chunk = "call.done")); reflexivity. }
  split; [exact H|].
  rewrite (@scan_forwards_processed_chunks Sample.collaborators Sample.detect
             Sample.process Sample.consumes _ None [] H).
  reflexivity.
Defined.

End ConcreteMore.
